(** * NovaStudio AI backend: the project / render-job model of [main.py]

    A shallow embedding of the FastAPI application in [src/main.py]:
    the Pydantic schemas as records, the JSON values the handlers build as
    an inductive type, the MongoDB collections as ordered association
    lists keyed by [ObjectId], and every route handler as a function in a
    state-and-exception monad over the module-level [db] handle. *)

From Stdlib Require Import List String Ascii ZArith NArith Bool Lia.
Import ListNotations.
Local Open Scope string_scope.

(** ** BSON object ids *)

Module Bson.

(** A 12-byte BSON object id, as the 96-bit number it encodes. *)
Definition ObjectId := N.

Definition hex_alphabet : list ascii :=
  list_ascii_of_string "0123456789abcdef".

Definition hex_digit (n : N) : ascii :=
  nth (N.to_nat n) hex_alphabet "0"%char.

(** Value of one hexadecimal character, either case. *)
Definition hex_value (c : ascii) : option N :=
  let n := N_of_ascii c in
  if ((48 <=? n) && (n <=? 57))%N then Some (n - 48)%N
  else if ((97 <=? n) && (n <=? 102))%N then Some (n - 87)%N
  else if ((65 <=? n) && (n <=? 70))%N then Some (n - 55)%N
  else None.

(** Most significant nibble first, [k] nibbles. *)
Fixpoint hex_of (k : nat) (o : N) : string :=
  match k with
  | O => EmptyString
  | S k' => String (hex_digit ((o / 16 ^ N.of_nat k') mod 16)%N) (hex_of k' o)
  end.

(** [str(oid)]: 24 lowercase hexadecimal characters. *)
Definition to_str (o : ObjectId) : string := hex_of 24 o.

(** The 12 bytes of an object id ([oid.binary]), most significant first,
    written for any number [k] of bytes. *)
Fixpoint bytes_of (k : nat) (o : N) : list N :=
  match k with
  | O => []
  | S k' => ((o / 256 ^ N.of_nat k') mod 256)%N :: bytes_of k' o
  end.

Definition binary (o : ObjectId) : list N := bytes_of 12 o.

(** ASCII whitespace ([Py_ISSPACE]): tab, line feed, vertical tab, form
    feed, carriage return and space. *)
Definition is_space (c : ascii) : bool :=
  let n := N_of_ascii c in
  (((9 <=? n) && (n <=? 13)) || (n =? 32))%N.

(** [bytes.fromhex(s)]: two hexadecimal digits per byte, ASCII whitespace
    skipped before each byte but not inside one; [None] stands for
    [ValueError]. *)
Fixpoint fromhex (s : string) : option (list N) :=
  match s with
  | EmptyString => Some []
  | String c s' =>
      if is_space c then fromhex s'
      else
        match hex_value c, s' with
        | Some top, String c' s'' =>
            match hex_value c', fromhex s'' with
            | Some bot, Some bytes => Some ((top * 16 + bot)%N :: bytes)
            | _, _ => None
            end
        | _, _ => None
        end
  end.

(** [ObjectId(s)] for a string: a string of 24 characters is handed to
    [bytes.fromhex] and the bytes that come back are kept as they are,
    fewer than 12 when the string holds whitespace; any other length, or
    a [ValueError] from [fromhex], raises [InvalidId] (here [None]). *)
Definition of_str (s : string) : option (list N) :=
  if Nat.eqb (String.length s) 24 then fromhex s else None.

(** The object id that 12 bytes spell; fewer bytes spell none. *)
Definition as_id (bytes : list N) : option ObjectId :=
  if Nat.eqb (List.length bytes) 12
  then Some (fold_left (fun acc b => (acc * 256 + b)%N) bytes 0%N)
  else None.

End Bson.

(** ** JSON values ([Dict[str, Any]], handler results) *)

#[warnings="-register-all"]
Inductive Json : Type :=
| JNull
| JBool (b : bool)
| JInt (z : Z)
| JFloat (literal : string)
| JStr (s : string)
| JOid (o : Bson.ObjectId)
| JList (l : list Json)
| JObj (kv : list (string * Json)).

(** A Python dict with string keys, in insertion order. *)
Definition Dict := list (string * Json).

Definition opt_str (o : option string) : Json :=
  match o with Some s => JStr s | None => JNull end.

Definition opt_dict (o : option Dict) : Json :=
  match o with Some d => JObj d | None => JNull end.

Definition str_list (l : list string) : Json := JList (map JStr l).

Module PyDict.

(** [d.get(k)] *)
Fixpoint get (d : Dict) (k : string) : option Json :=
  match d with
  | [] => None
  | (k', v) :: d' => if String.eqb k' k then Some v else get d' k
  end.

(** [d[k] = v]: overwrite in place, or append a new key. *)
Fixpoint set (d : Dict) (k : string) (v : Json) : Dict :=
  match d with
  | [] => [(k, v)]
  | (k', v') :: d' =>
      if String.eqb k' k then (k', v) :: d' else (k', v') :: set d' k v
  end.

(** [del d[k]] *)
Fixpoint del (d : Dict) (k : string) : Dict :=
  match d with
  | [] => []
  | (k', v') :: d' =>
      if String.eqb k' k then d' else (k', v') :: del d' k
  end.

End PyDict.

(** ** Python string helpers *)

(** [s[:n]]: the first [n] characters of [s], all of [s] when it is
    shorter.  One element of a Rocq string stands for one character of the
    Python [str]. *)
Fixpoint py_slice_to (n : nat) (s : string) : string :=
  match n, s with
  | O, _ => EmptyString
  | S _, EmptyString => EmptyString
  | S n', String c s' => String c (py_slice_to n' s')
  end.

(** ** Schemas (collections) *)

Record Brand := mkBrand {
  brand_name : string;
  logo_url : option string;
  primary_color : option string;
  secondary_color : option string;
  font_family : option string
}.

Record Template := mkTemplate {
  tpl_title : string;
  category : string;
  thumbnail_url : option string;
  tpl_description : option string;
  tpl_timeline : option Dict
}.

Record Media := mkMedia {
  kind : string;
  source_url : option string;
  filename : option string;
  transcript : option string;
  media_language : option string;
  metadata : option Dict
}.

Record Project := mkProject {
  title : string;
  description : option string;
  brand_id : option string;
  template_id : option string;
  timeline : option Dict;
  media_ids : list string;
  settings : Dict
}.

(** The [default_factory] of [Project.settings]. *)
Definition default_settings : Dict :=
  [ ("resolution", JStr "1080p");
    ("fps", JInt 30);
    ("aspect", JStr "16:9");
    ("platforms", JList [JStr "youtube"; JStr "tiktok"; JStr "instagram"]) ].

Record RenderJob := mkRenderJob {
  project_id : string;
  job_type : string;
  status : string;
  progress : Z;
  params : option Dict;
  output_url : option string;
  error : option string
}.

Record ScriptToVideoRequest := mkScriptToVideoRequest {
  stv_title : string;
  script : string;
  stv_language : string;
  platform : string;
  voice_style : option string;
  include_subtitles : bool
}.

Record EditCommandRequest := mkEditCommandRequest {
  edit_project_id : string;
  command : string;
  edit_language : option string
}.

Record VoiceCloneRequest := mkVoiceCloneRequest {
  voice_name : string;
  sample_url : option string;
  voice_language : option string
}.

Record AvatarGenerateRequest := mkAvatarGenerateRequest {
  avatar_name : string;
  image_url : option string;
  style : option string;
  emotions : list string
}.

(** What a collection holds: the model handed to [create_document]. *)
Inductive Document :=
| DBrand (b : Brand)
| DTemplate (t : Template)
| DMedia (m : Media)
| DProject (p : Project)
| DRenderJob (j : RenderJob).

(** [model_dump()] of each schema, fields in declaration order. *)
Definition model_dump (doc : Document) : Dict :=
  match doc with
  | DBrand b =>
      [ ("name", JStr (brand_name b)); ("logo_url", opt_str (logo_url b));
        ("primary_color", opt_str (primary_color b));
        ("secondary_color", opt_str (secondary_color b));
        ("font_family", opt_str (font_family b)) ]
  | DTemplate t =>
      [ ("title", JStr (tpl_title t)); ("category", JStr (category t));
        ("thumbnail_url", opt_str (thumbnail_url t));
        ("description", opt_str (tpl_description t));
        ("timeline", opt_dict (tpl_timeline t)) ]
  | DMedia m =>
      [ ("kind", JStr (kind m)); ("source_url", opt_str (source_url m));
        ("filename", opt_str (filename m));
        ("transcript", opt_str (transcript m));
        ("language", opt_str (media_language m));
        ("metadata", opt_dict (metadata m)) ]
  | DProject p =>
      [ ("title", JStr (title p)); ("description", opt_str (description p));
        ("brand_id", opt_str (brand_id p));
        ("template_id", opt_str (template_id p));
        ("timeline", opt_dict (timeline p));
        ("media_ids", str_list (media_ids p));
        ("settings", JObj (settings p)) ]
  | DRenderJob j =>
      [ ("project_id", JStr (project_id j)); ("job_type", JStr (job_type j));
        ("status", JStr (status j)); ("progress", JInt (progress j));
        ("params", opt_dict (params j));
        ("output_url", opt_str (output_url j));
        ("error", opt_str (error j)) ]
  end.

(** ** Helper functions *)

(** [to_str_id]: replace the [_id] object id of a fetched document by its
    string form under the key [id]. *)
Definition to_str_id (doc : option Dict) : option Dict :=
  match doc with
  | None => None
  | Some d =>
      match PyDict.get d "_id" with
      | Some (JOid _id) =>
          Some (PyDict.del (PyDict.set d "id" (JStr (Bson.to_str _id))) "_id")
      | _ => Some d
      end
  end.

(** Truthiness test [not doc] on an optional dict. *)
Definition py_not (doc : option Dict) : bool :=
  match doc with
  | None => true
  | Some [] => true
  | Some (_ :: _) => false
  end.

(** ** The database collaborator *)

(** The MongoDB handle as an in-memory store: each named collection is the
    list of its documents in insertion order, every document under an
    [_id] of its own.  Reads and writes of a present store do not fail. *)
Module Database.

(** A collection: documents with their [_id], oldest first. *)
Definition Collection := list (Bson.ObjectId * Document).

(** The database handle: [db[name]] for every collection name. *)
Definition t := string -> Collection.

Definition empty : t := fun _ => [].

Definition update (d : t) (name : string) (c : Collection) : t :=
  fun n => if String.eqb n name then c else d n.

(** An object id no document of the collection carries yet. *)
Definition fresh_id (c : Collection) : Bson.ObjectId :=
  N.succ (fold_right N.max 0%N (map fst c)).

Definition insert_one (c : Collection) (doc : Document)
  : Bson.ObjectId * Collection :=
  let o := fresh_id c in (o, (c ++ [(o, doc)])%list).

(** The stored model under [_id = o], if any. *)
Fixpoint lookup (c : Collection) (o : Bson.ObjectId) : option Document :=
  match c with
  | [] => None
  | (o', doc) :: c' => if N.eqb o' o then Some doc else lookup c' o
  end.

(** The document as the driver returns it: [_id] first, then the
    dumped fields. *)
Definition as_dict (o : Bson.ObjectId) (doc : Document) : Dict :=
  ("_id", JOid o) :: model_dump doc.

(** [collection.find_one({"_id": oid})], where [oid] is given by the
    bytes it holds: 12 bytes find the document stored under the id they
    spell; an object of fewer bytes equals the [_id] of no document. *)
Definition find_one (c : Collection) (oid : list N) : option Dict :=
  match Bson.as_id oid with
  | Some o => option_map (as_dict o) (lookup c o)
  | None => None
  end.

End Database.

(** ** Handlers as state-and-exception computations *)

Inductive Exn :=
| HTTPException (status_code : Z) (detail : string)
| PersistenceError.

Inductive Result (A : Type) :=
| Ok (a : A)
| Raise (e : Exn).
Arguments Ok {A} a.
Arguments Raise {A} e.

(** The module-level [db]: [None] when no database is configured. *)
Definition World := option Database.t.

Definition App (A : Type) := World -> Result A * World.

Definition ret {A} (a : A) : App A := fun w => (Ok a, w).

Definition raise {A} (e : Exn) : App A := fun w => (Raise e, w).

Definition bind {A B} (c : App A) (k : A -> App B) : App B :=
  fun w =>
    match c w with
    | (Ok a, w') => k a w'
    | (Raise e, w') => (Raise e, w')
    end.

Notation "x <- c ;; k" := (bind c (fun x => k))
  (at level 61, c at next level, right associativity).

(** The collection [name] as the world sees it (nothing without a
    database). *)
Definition coll (w : World) (name : string) : Database.Collection :=
  match w with
  | Some d => d name
  | None => []
  end.

(** Modelled from the spec: [database.create_document], whose module is
    not among the sources.  Section 4.2, [create(job) -> JobId], fails with
    [PersistenceError] on storage failure; otherwise the model is stored
    under a fresh id and the id is returned as a string. *)
Definition create_document (name : string) (data : Document) : App string :=
  fun w =>
    match w with
    | None => (Raise PersistenceError, None)
    | Some d =>
        let '(o, c') := Database.insert_one (d name) data in
        (Ok (Bson.to_str o), Some (Database.update d name c'))
    end.

(** Modelled from the spec: [database.get_documents], whose module is not
    among the sources.  Section 4.2, [list(filter, limit)], a finite
    sequence ordered by creation time descending; the filter is always
    empty in [main.py]. *)
Definition get_documents (name : string) (limit : Z) : App (list Dict) :=
  fun w =>
    match w with
    | None => (Raise PersistenceError, None)
    | Some d =>
        (Ok (firstn (Z.to_nat limit)
               (rev (map (fun od => Database.as_dict (fst od) (snd od))
                       (d name)))),
         w)
    end.

(** [[to_str_id(i) for i in items]] *)
Definition str_ids (items : list Dict) : Json :=
  JList (map (fun i => opt_dict (to_str_id (Some i))) items).

(** The driver call [db[name].find_one({"_id": oid})] as a handler meets
    it: it hands back a document or nothing, or it raises. *)
Definition FindOne := Database.Collection -> list N -> Result (option Dict).

(** The in-memory store as a driver: it never raises. *)
Definition stored_find_one : FindOne :=
  fun c oid => Ok (Database.find_one c oid).

(** ** Routes *)

Definition read_root : App Json :=
  ret (JObj
    [ ("name", JStr "NovaStudio AI");
      ("message", JStr "Backend running");
      ("features", str_list
         [ "command-editing"; "subtitles-120+"; "ai-dubbing-voice-clone";
           "avatars-talking-photo"; "text-image-audio-to-video";
           "translation-localization"; "templates-branding"; "analytics";
           "developer-api" ]) ]).

(** *** Brands and templates *)

Definition create_brand (brand : Brand) : App Json :=
  brand_id <- create_document "brand" (DBrand brand) ;;
  ret (JObj [("id", JStr brand_id)]).

Definition list_brands (limit : Z) : App Json :=
  items <- get_documents "brand" limit ;;
  ret (str_ids items).

Definition create_template (tpl : Template) : App Json :=
  tpl_id <- create_document "template" (DTemplate tpl) ;;
  ret (JObj [("id", JStr tpl_id)]).

Definition list_templates (limit : Z) : App Json :=
  items <- get_documents "template" limit ;;
  ret (str_ids items).

(** *** Media *)

Definition add_media (media : Media) : App Json :=
  media_id <- create_document "media" (DMedia media) ;;
  ret (JObj [("id", JStr media_id)]).

Definition list_media (limit : Z) : App Json :=
  items <- get_documents "media" limit ;;
  ret (str_ids items).

(** *** Projects *)

Definition create_project (project : Project) : App Json :=
  project_id <- create_document "project" (DProject project) ;;
  ret (JObj [("id", JStr project_id)]).

Definition list_projects (limit : Z) : App Json :=
  items <- get_documents "project" limit ;;
  ret (str_ids items).

(** [get_project], with the driver's [find_one] as a parameter. *)
Definition get_project_via (find_one : FindOne) (project_id : string)
  : App Json :=
  fun w =>
    match w with
    | None => raise (HTTPException 500 "Database not available") w
    | Some d =>
        (* try: doc = db["project"].find_one({"_id": ObjectId(project_id)})
           except Exception: raise 400 *)
        match Bson.of_str project_id with
        | None => raise (HTTPException 400 "Invalid project id") w
        | Some oid =>
            match find_one (d "project") oid with
            | Raise _ => raise (HTTPException 400 "Invalid project id") w
            | Ok doc =>
                if py_not doc
                then raise (HTTPException 404 "Project not found") w
                else ret (opt_dict (to_str_id doc)) w
            end
        end
    end.

(** [get_project] on the in-memory store. *)
Definition get_project (project_id : string) : App Json :=
  get_project_via stored_find_one project_id.

(** *** AI workflows *)

Definition sample_output_url : string :=
  "https://storage.googleapis.com/vr-demo-assets/sample-output.mp4".

Definition edited_preview_url : string :=
  "https://storage.googleapis.com/vr-demo-assets/edited-preview.mp4".

Definition avatar_preview_url : string :=
  "https://storage.googleapis.com/vr-demo-assets/avatar-preview.gif".

(** The [Project(...)] that [script_to_video] builds from the request. *)
Definition script_project (req : ScriptToVideoRequest) : Project :=
  {| title := stv_title req;
     description := Some ("Auto-generated from script for " ++ platform req);
     brand_id := None;
     template_id := None;
     timeline := Some
       [ ("tracks", JList
            [ JObj [ ("type", JStr "voiceover");
                     ("language", JStr (stv_language req));
                     ("style", opt_str (voice_style req)) ];
              JObj [ ("type", JStr "subtitles");
                     ("enabled", JBool (include_subtitles req)) ];
              JObj [ ("type", JStr "visuals");
                     ("source", JStr "stock+ai") ] ]);
         ("script_excerpt", JStr (py_slice_to 400 (script req))) ];
     media_ids := [];
     settings :=
       [ ("resolution", JStr "1080p");
         ("fps", JInt 30);
         ("aspect",
           JStr (if String.eqb (platform req) "tiktok" then "9:16" else "16:9"));
         ("platforms", JList [JStr (platform req)]) ] |}.

(** The [RenderJob(...)] that [script_to_video] stores. *)
Definition script_job (project_id : string) (req : ScriptToVideoRequest)
  : RenderJob :=
  {| project_id := project_id;
     job_type := "render";
     status := "completed";
     progress := 100;
     params := Some [ ("language", JStr (stv_language req));
                      ("platform", JStr (platform req)) ];
     output_url := Some sample_output_url;
     error := None |}.

Definition script_to_video (req : ScriptToVideoRequest) : App Json :=
  project_id <- create_document "project" (DProject (script_project req)) ;;
  let job := script_job project_id req in
  job_id <- create_document "renderjob" (DRenderJob job) ;;
  ret (JObj
    [ ("project_id", JStr project_id);
      ("job_id", JStr job_id);
      ("status", JStr "completed");
      ("output_url", opt_str (output_url job)) ]).

Definition simulated_diff : Json :=
  JObj
    [ ("actions", JList
         [ JObj [("op", JStr "cut"); ("from", JStr "00:10"); ("to", JStr "00:14")];
           JObj [("op", JStr "add_broll"); ("query", JStr "city skyline")];
           JObj [("op", JStr "color"); ("mode", JStr "auto-correct")] ]) ].

(** The [RenderJob(...)] that [ai_edit] stores. *)
Definition edit_job (req : EditCommandRequest) : RenderJob :=
  {| project_id := edit_project_id req;
     job_type := "edit";
     status := "completed";
     progress := 100;
     params := Some [ ("command", JStr (command req));
                      ("language", opt_str (edit_language req)) ];
     output_url := Some edited_preview_url;
     error := None |}.

Definition ai_edit (req : EditCommandRequest) : App Json :=
  let job := edit_job req in
  job_id <- create_document "renderjob" (DRenderJob job) ;;
  ret (JObj
    [ ("job_id", JStr job_id);
      ("status", JStr "completed");
      ("diff", simulated_diff);
      ("preview_url", opt_str (output_url job)) ]).

Definition voice_clone (req : VoiceCloneRequest) : App Json :=
  let media :=
    {| kind := "voice";
       source_url := sample_url req;
       filename := None;
       transcript := None;
       media_language := voice_language req;
       metadata := Some [ ("name", JStr (voice_name req));
                          ("clone", JBool true) ] |} in
  media_id <- create_document "media" (DMedia media) ;;
  ret (JObj [("voice_id", JStr media_id); ("status", JStr "ready")]).

Definition avatar_generate (req : AvatarGenerateRequest) : App Json :=
  let media :=
    {| kind := "avatar";
       source_url := image_url req;
       filename := None;
       transcript := None;
       media_language := Some "en";
       metadata := Some [ ("name", JStr (avatar_name req));
                          ("style", opt_str (style req));
                          ("emotions", str_list (emotions req)) ] |} in
  media_id <- create_document "media" (DMedia media) ;;
  ret (JObj [("avatar_id", JStr media_id);
             ("preview_url", JStr avatar_preview_url)]).

(** *** Render jobs (lookup) *)

(** [get_render_job], with the driver's [find_one] as a parameter. *)
Definition get_render_job_via (find_one : FindOne) (job_id : string)
  : App Json :=
  fun w =>
    match w with
    | None => raise (HTTPException 500 "Database not available") w
    | Some d =>
        (* try: doc = db["renderjob"].find_one({"_id": ObjectId(job_id)})
           except Exception: raise 400 *)
        match Bson.of_str job_id with
        | None => raise (HTTPException 400 "Invalid job id") w
        | Some oid =>
            match find_one (d "renderjob") oid with
            | Raise _ => raise (HTTPException 400 "Invalid job id") w
            | Ok doc =>
                if py_not doc
                then raise (HTTPException 404 "Job not found") w
                else ret (opt_dict (to_str_id doc)) w
            end
        end
    end.

(** [get_render_job] on the in-memory store. *)
Definition get_render_job (job_id : string) : App Json :=
  get_render_job_via stored_find_one job_id.

(** *** Analytics and hello *)

Definition analytics : App Json :=
  ret (JObj
    [ ("views", JInt 12840);
      ("avg_watch_time", JFloat "42.6");
      ("engagement_rate", JFloat "0.37");
      ("top_platforms", JList
         [ JObj [("name", JStr "YouTube"); ("views", JInt 7400)];
           JObj [("name", JStr "TikTok"); ("views", JInt 3820)];
           JObj [("name", JStr "Instagram"); ("views", JInt 1620)] ]);
      ("languages", JObj
         [ ("en", JFloat "0.72"); ("es", JFloat "0.14");
           ("fr", JFloat "0.06"); ("de", JFloat "0.08") ]) ]).

Definition hello : App Json :=
  ret (JObj [("message", JStr "Hello from NovaStudio AI backend!")]).

(** ** The application as a transition system *)

(** One request to a route of the application.  The diagnostic [/test]
    route, which only reads the process environment and driver metadata,
    is left out. *)
Inductive Request :=
| ReadRoot
| CreateBrand (brand : Brand)
| ListBrands (limit : Z)
| CreateTemplate (tpl : Template)
| ListTemplates (limit : Z)
| AddMedia (media : Media)
| ListMedia (limit : Z)
| CreateProject (project : Project)
| ListProjects (limit : Z)
| GetProject (project_id : string)
| ScriptToVideo (req : ScriptToVideoRequest)
| AiEdit (req : EditCommandRequest)
| VoiceClone (req : VoiceCloneRequest)
| AvatarGenerate (req : AvatarGenerateRequest)
| GetRenderJob (job_id : string)
| Analytics
| Hello.

Definition handle (r : Request) : App Json :=
  match r with
  | ReadRoot => read_root
  | CreateBrand brand => create_brand brand
  | ListBrands limit => list_brands limit
  | CreateTemplate tpl => create_template tpl
  | ListTemplates limit => list_templates limit
  | AddMedia media => add_media media
  | ListMedia limit => list_media limit
  | CreateProject project => create_project project
  | ListProjects limit => list_projects limit
  | GetProject project_id => get_project project_id
  | ScriptToVideo req => script_to_video req
  | AiEdit req => ai_edit req
  | VoiceClone req => voice_clone req
  | AvatarGenerate req => avatar_generate req
  | GetRenderJob job_id => get_render_job job_id
  | Analytics => analytics
  | Hello => hello
  end.

(** The world after serving the requests in order. *)
Fixpoint run (rs : list Request) (w : World) : World :=
  match rs with
  | [] => w
  | r :: rs' => run rs' (snd (handle r w))
  end.

(** The job-creating requests. *)
Definition is_submission (r : Request) : bool :=
  match r with
  | ScriptToVideo _ | AiEdit _ => true
  | _ => false
  end.

(** The render job stored under [o], if any. *)
Definition stored_job (w : World) (o : Bson.ObjectId) : option RenderJob :=
  match Database.lookup (coll w "renderjob") o with
  | Some (DRenderJob j) => Some j
  | _ => None
  end.

(** The project stored under [o], if any. *)
Definition stored_project (w : World) (o : Bson.ObjectId) : option Project :=
  match Database.lookup (coll w "project") o with
  | Some (DProject p) => Some p
  | _ => None
  end.

(** The field of a JSON object, as a client reads a response. *)
Definition json_get (v : Json) (k : string) : option Json :=
  match v with
  | JObj d => PyDict.get d k
  | _ => None
  end.

(** What both job constructors of [main.py] write: a job that is stored
    already finished. *)
Definition simulated_job (j : RenderJob) : Prop :=
  status j = "completed" /\ progress j = 100%Z /\
  (exists u, output_url j = Some u) /\ error j = None.

Definition simulated_entry (od : Bson.ObjectId * Document) : Prop :=
  exists j, snd od = DRenderJob j /\ simulated_job j.

(** [settings["platforms"]] when it is a list. *)
Definition platforms (p : Project) : option (list Json) :=
  match PyDict.get (settings p) "platforms" with
  | Some (JList l) => Some l
  | _ => None
  end.

(** The invariant of the data model: a platform list with an element. *)
Definition platforms_nonempty (p : Project) : bool :=
  match platforms p with
  | Some (_ :: _) => true
  | _ => false
  end.

(** The two outcomes the job lookup is specified to have: the stored
    job, or a not-found answer. *)
Definition job_or_not_found (r : Result Json) : Prop :=
  (exists doc, r = Ok (JObj doc)) \/
  (exists detail, r = Raise (HTTPException 404 detail)).

(** Modelled from the spec: the media-reference part of the timeline
    validation of section 4.1 ("a track references a missing media id"),
    which [main.py] does not contain.  The media ids a timeline refers to
    are the strings found under a [media_id] key anywhere in it. *)
Fixpoint media_refs (v : Json) : list string :=
  match v with
  | JList l => flat_map media_refs l
  | JObj kv =>
      flat_map
        (fun kx =>
           let '(k, x) := kx in
           ((if String.eqb k "media_id"
             then match x with JStr s => [s] | _ => [] end
             else []) ++ media_refs x)%list)
        kv
  | _ => []
  end.

(** Modelled from the spec: whether the timeline of a project refers to a
    media id that is not in the project's media list (section 4.1). *)
Definition references_missing_media (p : Project) : bool :=
  match timeline p with
  | Some tl =>
      existsb (fun m => negb (existsb (String.eqb m) (media_ids p)))
        (media_refs (JObj tl))
  | None => false
  end.

(** ** Sample requests and stores *)

Module Sample.

Definition launch : ScriptToVideoRequest :=
  {| stv_title := "Launch";
     script := "Hello world";
     stv_language := "en";
     platform := "tiktok";
     voice_style := Some "neutral";
     include_subtitles := true |}.

Definition launch_response : Json :=
  JObj [ ("project_id", JStr "000000000000000000000001");
         ("job_id", JStr "000000000000000000000001");
         ("status", JStr "completed");
         ("output_url", JStr sample_output_url) ].

Definition trim : EditCommandRequest :=
  {| edit_project_id := "000000000000000000000001";
     command := "cut from 00:10 to 00:14";
     edit_language := Some "en" |}.

Definition recolor : EditCommandRequest :=
  {| edit_project_id := "000000000000000000000002";
     command := "auto color correct";
     edit_language := None |}.

(** A client project whose only clip names a media id that the project
    does not list. *)
Definition dangling : Project :=
  {| title := "Demo";
     description := None;
     brand_id := None;
     template_id := None;
     timeline := Some
       [ ("tracks", JList
            [ JObj [ ("type", JStr "visuals");
                     ("clips", JList
                        [ JObj [ ("start", JInt 0); ("end", JInt 5);
                                 ("media_id", JStr "m-404") ] ]) ] ]) ];
     media_ids := [];
     settings := default_settings |}.

(** A client project whose settings carry an empty platform list. *)
Definition no_platforms : Project :=
  {| title := "Draft";
     description := None;
     brand_id := None;
     template_id := None;
     timeline := None;
     media_ids := [];
     settings := [ ("resolution", JStr "1080p"); ("fps", JInt 30);
                   ("aspect", JStr "16:9"); ("platforms", JList []) ] |}.

(** A job record with the schema defaults: [status="queued"],
    [progress=0]. *)
Definition queued_job : RenderJob :=
  {| project_id := "000000000000000000000001";
     job_type := "render";
     status := "queued";
     progress := 0;
     params := None;
     output_url := None;
     error := None |}.

(** A script of 450 characters, and a request that submits it. *)
Definition long_script : string :=
  string_of_list_ascii (repeat "x"%char 450).

Definition long_launch : ScriptToVideoRequest :=
  {| stv_title := "Long";
     script := long_script;
     stv_language := "en";
     platform := "youtube";
     voice_style := None;
     include_subtitles := false |}.

Definition empty : World := Some Database.empty.

(** A store that already holds the queued job under id 1. *)
Definition with_queued : World :=
  Some (Database.update Database.empty "renderjob"
          [(1%N, DRenderJob queued_job)]).

End Sample.



(** ** Which collections a request writes *)

(** The collections a handler passes to [create_document], in call
    order. *)
Definition writes (r : Request) : list string :=
  match r with
  | CreateBrand _ => ["brand"]
  | CreateTemplate _ => ["template"]
  | AddMedia _ | VoiceClone _ | AvatarGenerate _ => ["media"]
  | CreateProject _ => ["project"]
  | ScriptToVideo _ => ["project"; "renderjob"]
  | AiEdit _ => ["renderjob"]
  | _ => []
  end.

Definition writes_to (name : string) (r : Request) : bool :=
  existsb (String.eqb name) (writes r).

(** The routes that call neither [create_document] nor any other write. *)
Definition is_read_only (r : Request) : bool :=
  match writes r with
  | [] => true
  | _ :: _ => false
  end.



(** The media document stored under [o], if any. *)
Definition stored_media (w : World) (o : Bson.ObjectId) : option Media :=
  match Database.lookup (coll w "media") o with
  | Some (DMedia m) => Some m
  | _ => None
  end.

(** A Python dict holds each key once. *)
Definition unique_keys (d : Dict) : Prop := NoDup (map fst d).

(** Every 12-byte object id is below this bound. *)
Definition oid_bound : N := (2 ^ 96)%N.

Module MoreSamples.

Definition narrator : VoiceCloneRequest :=
  {| voice_name := "Narrator";
     sample_url := None;
     voice_language := Some "fr" |}.

Definition host : AvatarGenerateRequest :=
  {| avatar_name := "Host";
     image_url := Some "https://example.org/host.png";
     style := Some "toon";
     emotions := ["neutral"; "happy"] |}.


(** A driver whose lookups always raise. *)
Definition broken_find_one : FindOne := fun _ _ => Raise PersistenceError.

(** The queued sample job as the driver hands it back. *)
Definition fetched_job : Dict :=
  Database.as_dict 7%N (DRenderJob Sample.queued_job).

(** A brand, two submissions and lookups in between. *)
Definition session : list Request :=
  [ CreateBrand (mkBrand "Nova" None None None None);
    ScriptToVideo Sample.launch;
    GetRenderJob "000000000000000000000001";
    AiEdit Sample.trim;
    ListProjects 10;
    CreateProject Sample.dangling ].

End MoreSamples.

(** ** Object ids: printing and parsing *)

Module BsonFacts.
Import Bson.

Lemma hex_of_length k o : String.length (hex_of k o) = k.
Proof. induction k as [|k IH]; simpl; [reflexivity | now rewrite IH]. Qed.

Lemma to_str_length o : String.length (to_str o) = 24.
Proof. apply hex_of_length. Qed.

Lemma hex_value_digit n : (n < 16)%N -> hex_value (hex_digit n) = Some n.
Proof.
  intros H.
  assert (Hn : exists m, (m < 16)%nat /\ n = N.of_nat m).
  { exists (N.to_nat n). split; [lia | now rewrite N2Nat.id]. }
  destruct Hn as [m [Hm ->]].
  do 16 (destruct m as [|m]; [reflexivity|]). lia.
Qed.

Lemma is_space_digit n : (n < 16)%N -> is_space (hex_digit n) = false.
Proof.
  intros H.
  assert (Hn : exists m, (m < 16)%nat /\ n = N.of_nat m).
  { exists (N.to_nat n). split; [lia | now rewrite N2Nat.id]. }
  destruct Hn as [m [Hm ->]].
  do 16 (destruct m as [|m]; [reflexivity|]). lia.
Qed.

Lemma bytes_of_length k o : List.length (bytes_of k o) = k.
Proof. induction k as [|k IH]; simpl; [reflexivity | now rewrite IH]. Qed.

(** Two printed digits are read back as one byte. *)
Lemma fromhex_hex_of k : forall o,
  fromhex (hex_of (2 * k) o) = Some (bytes_of k o).
Proof.
  induction k as [|k IH]; intros o; [reflexivity|].
  replace (2 * S k)%nat with (S (S (2 * k))) by lia.
  cbn [hex_of fromhex bytes_of].
  rewrite is_space_digit by (apply N.mod_lt; lia).
  rewrite !hex_value_digit by (apply N.mod_lt; lia).
  rewrite IH. do 2 f_equal.
  replace (N.of_nat (S (2 * k))) with (N.succ (N.of_nat (2 * k))) by lia.
  rewrite N.pow_succ_r'.
  replace (N.of_nat (2 * k)) with (2 * N.of_nat k)%N by lia.
  rewrite N.pow_mul_r. change (16 ^ 2)%N with 256%N.
  rewrite (N.mul_comm 16 (256 ^ N.of_nat k)).
  rewrite <- N.Div0.div_div.
  set (x := (o / 256 ^ N.of_nat k)%N).
  change 256%N with (16 * 16)%N.
  rewrite (N.Div0.mod_mul_r x 16 16). lia.
Qed.

Lemma fold_bytes_of k : forall acc o,
  fold_left (fun a b => (a * 256 + b)%N) (bytes_of k o) acc
  = (acc * 256 ^ N.of_nat k + o mod 256 ^ N.of_nat k)%N.
Proof.
  induction k as [|k IH]; intros acc o.
  - simpl. rewrite N.mod_1_r. lia.
  - cbn [bytes_of fold_left]. rewrite IH.
    replace (N.of_nat (S k)) with (N.succ (N.of_nat k)) by lia.
    rewrite N.pow_succ_r'.
    rewrite (N.mul_comm 256 (256 ^ N.of_nat k)).
    rewrite (N.Div0.mod_mul_r o (256 ^ N.of_nat k) 256). lia.
Qed.

(** Parsing a printed id gives the 12 bytes of the id. *)
Lemma of_str_to_str o : of_str (to_str o) = Some (binary o).
Proof.
  unfold of_str. rewrite to_str_length. cbn [Nat.eqb].
  unfold to_str, binary. change 24%nat with (2 * 12)%nat.
  apply fromhex_hex_of.
Qed.

(** The 12 bytes of an id spell the id back (its low 96 bits). *)
Lemma as_id_binary o : as_id (binary o) = Some (o mod 2 ^ 96)%N.
Proof.
  unfold as_id, binary. rewrite bytes_of_length. cbn [Nat.eqb].
  rewrite fold_bytes_of. reflexivity.
Qed.

End BsonFacts.

(** ** Collections only grow *)

Module DatabaseFacts.
Import Database.
Local Open Scope list_scope.

Lemma lookup_app_l (c e : Collection) o doc :
  lookup c o = Some doc -> lookup (c ++ e) o = Some doc.
Proof.
  induction c as [|[o' d'] c IH]; simpl; [discriminate|].
  destruct (N.eqb o' o); auto.
Qed.

Lemma lookup_app_r (c e : Collection) o :
  lookup c o = None -> lookup (c ++ e) o = lookup e o.
Proof.
  induction c as [|[o' d'] c IH]; simpl; [reflexivity|].
  destruct (N.eqb o' o); [discriminate | auto].
Qed.

Lemma lookup_In c o doc : lookup c o = Some doc -> In (o, doc) c.
Proof.
  induction c as [|[o' d'] c IH]; simpl; [discriminate|].
  destruct (N.eqb_spec o' o) as [->|_].
  - intros [= ->]. now left.
  - intros H. right. auto.
Qed.

Lemma le_max_ids (c : Collection) o doc :
  In (o, doc) c -> (o <= fold_right N.max 0 (map fst c))%N.
Proof.
  induction c as [|[o' d'] c IH]; simpl; [tauto|].
  intros [[= -> ->]|H]; [lia | specialize (IH H); lia].
Qed.

Lemma fresh_id_fresh c : lookup c (fresh_id c) = None.
Proof.
  destruct (lookup c (fresh_id c)) as [doc|] eqn:E; [|reflexivity].
  apply lookup_In, le_max_ids in E. unfold fresh_id in E. lia.
Qed.

Lemma lookup_insert_one c doc :
  lookup (snd (insert_one c doc)) (fst (insert_one c doc)) = Some doc.
Proof.
  unfold insert_one; cbn [fst snd].
  rewrite lookup_app_r by apply fresh_id_fresh.
  simpl. now rewrite N.eqb_refl.
Qed.

End DatabaseFacts.

(** ** Slicing *)

Module SliceFacts.

Lemma py_slice_to_prefix n : forall s,
  exists rest, s = py_slice_to n s ++ rest.
Proof.
  induction n as [|n IH]; intros s.
  - exists s. reflexivity.
  - destruct s as [|c s]; simpl.
    + exists EmptyString. reflexivity.
    + destruct (IH s) as [rest Hrest]. exists rest. now rewrite <- Hrest.
Qed.

Lemma py_slice_to_length n : forall s,
  String.length (py_slice_to n s) = Nat.min n (String.length s).
Proof.
  induction n as [|n IH]; intros s; [reflexivity|].
  destruct s as [|c s]; simpl; [reflexivity | now rewrite IH].
Qed.

Lemma py_slice_to_short n : forall s,
  String.length s <= n -> py_slice_to n s = s.
Proof.
  induction n as [|n IH]; intros s H.
  - destruct s; [reflexivity | simpl in H; lia].
  - destruct s as [|c s]; simpl; [reflexivity|].
    simpl in H. rewrite IH by lia. reflexivity.
Qed.

End SliceFacts.

(** ** Every request only appends to collections *)

Arguments Bson.to_str : simpl never.
Arguments Database.fresh_id : simpl never.
Arguments py_slice_to : simpl never.

Section Frame.
Local Open Scope list_scope.

Lemma create_document_some name data d :
  create_document name data (Some d)
  = (Ok (Bson.to_str (Database.fresh_id (d name))),
     Some (Database.update d name
             (d name ++ [(Database.fresh_id (d name), data)]))).
Proof. reflexivity. Qed.

Lemma coll_update d name c n :
  coll (Some (Database.update d name c)) n
  = if String.eqb n name then c else d n.
Proof. reflexivity. Qed.

Ltac split_lookup :=
  repeat match goal with
    | |- context [Bson.of_str ?s] => destruct (Bson.of_str s)
    | |- context [py_not ?doc] => destruct (py_not doc)
    end; cbn.

Ltac split_names :=
  unfold Database.update;
  repeat match goal with
    | |- context [String.eqb ?n ?lit] => destruct (String.eqb_spec n lit); subst
    end; try discriminate.

Ltac appended :=
  first [ exists []; now rewrite ?app_nil_r | eexists; reflexivity ].

(** Whatever the request, every collection afterwards is the collection
    before with documents appended. *)
Lemma handle_appends r w name :
  exists extra, coll (snd (handle r w)) name = coll w name ++ extra.
Proof.
  destruct r, w as [d|]; cbn; split_lookup; split_names; appended.
Qed.

(** On the job collection, what is appended is at most one job, built by
    [script_job] or [edit_job]. *)
Lemma handle_appends_jobs r w :
  exists extra,
    coll (snd (handle r w)) "renderjob" = coll w "renderjob" ++ extra /\
    Forall simulated_entry extra.
Proof.
  destruct r, w as [d|]; cbn; split_lookup.
  all: try (exists []; split; [now rewrite ?app_nil_r | constructor]).
  all: eexists; split; [reflexivity|].
  all: repeat constructor; eexists; split; [reflexivity|].
  all: repeat split; eexists; reflexivity.
Qed.

Lemma run_app rs1 rs2 w : run (rs1 ++ rs2) w = run rs2 (run rs1 w).
Proof.
  revert w; induction rs1 as [|r rs1 IH]; intros w; simpl; auto.
Qed.

(** A stored document is found again, unchanged, after any request. *)
Lemma handle_keeps_document r w name o doc :
  Database.lookup (coll w name) o = Some doc ->
  Database.lookup (coll (snd (handle r w)) name) o = Some doc.
Proof.
  intros H. destruct (handle_appends r w name) as [extra ->].
  now apply DatabaseFacts.lookup_app_l.
Qed.

Lemma handle_keeps_job r w o j :
  stored_job w o = Some j -> stored_job (snd (handle r w)) o = Some j.
Proof.
  unfold stored_job. intros H.
  destruct (Database.lookup (coll w "renderjob") o) as [doc|] eqn:E;
    [|discriminate].
  now rewrite (handle_keeps_document r w _ _ _ E).
Qed.

Lemma run_keeps_job rs : forall w o j,
  stored_job w o = Some j -> stored_job (run rs w) o = Some j.
Proof.
  induction rs as [|r rs IH]; intros w o j H; simpl; auto.
  apply IH. now apply handle_keeps_job.
Qed.

Lemma handle_keeps_project r w o p :
  stored_project w o = Some p ->
  stored_project (snd (handle r w)) o = Some p.
Proof.
  unfold stored_project. intros H.
  destruct (Database.lookup (coll w "project") o) as [doc|] eqn:E;
    [|discriminate].
  now rewrite (handle_keeps_document r w _ _ _ E).
Qed.

(** A job that one request brings into the store is a simulated job. *)
Lemma handle_new_job r w o j :
  stored_job w o = None ->
  stored_job (snd (handle r w)) o = Some j ->
  simulated_job j.
Proof.
  unfold stored_job. intros Hold Hnew.
  destruct (handle_appends_jobs r w) as (extra & Heq & Hall).
  rewrite Heq in Hnew.
  destruct (Database.lookup (coll w "renderjob") o) as [doc|] eqn:E.
  - rewrite (DatabaseFacts.lookup_app_l _ extra _ _ E) in Hnew.
    destruct doc; discriminate.
  - rewrite (DatabaseFacts.lookup_app_r _ extra _ E) in Hnew.
    destruct (Database.lookup extra o) as [doc|] eqn:E'; [|discriminate].
    apply DatabaseFacts.lookup_In in E'.
    rewrite Forall_forall in Hall. destruct (Hall _ E') as (j' & Hj' & Hsim).
    cbn in Hj'. subst doc. now injection Hnew as <-.
Qed.

(** The same along a whole run of requests. *)
Lemma run_new_job rs : forall w o j,
  stored_job w o = None ->
  stored_job (run rs w) o = Some j ->
  simulated_job j.
Proof.
  induction rs as [|r rs IH]; intros w o j Hold Hnew; simpl in Hnew.
  - congruence.
  - destruct (stored_job (snd (handle r w)) o) as [j0|] eqn:E.
    + rewrite (run_keeps_job rs _ _ _ E) in Hnew. injection Hnew as <-.
      eapply handle_new_job; eauto.
    + eapply IH; eauto.
Qed.

(** On the project collection, what is appended is the project of
    [script_to_video] or the client's project of [create_project]. *)
Lemma handle_appends_projects r w :
  exists extra,
    coll (snd (handle r w)) "project" = coll w "project" ++ extra /\
    Forall (fun od =>
              (exists req, r = ScriptToVideo req /\
                           snd od = DProject (script_project req)) \/
              (exists p, r = CreateProject p /\ snd od = DProject p))
      extra.
Proof.
  destruct r, w as [d|]; cbn; split_lookup.
  all: try (exists []; split; [now rewrite ?app_nil_r | constructor]).
  all: eexists; split; [reflexivity|].
  all: constructor; [|constructor]; cbn.
  all: first [ left; eexists; split; reflexivity
             | right; eexists; split; reflexivity ].
Qed.

(** A project found after a request was there before, or is the one the
    request created. *)
Lemma handle_project_origin r w o p :
  stored_project (snd (handle r w)) o = Some p ->
  stored_project w o = Some p \/
  (exists req, r = ScriptToVideo req /\ p = script_project req) \/
  r = CreateProject p.
Proof.
  unfold stored_project. intros Hnew.
  destruct (handle_appends_projects r w) as (extra & Heq & Hall).
  rewrite Heq in Hnew.
  destruct (Database.lookup (coll w "project") o) as [doc|] eqn:E.
  - rewrite (DatabaseFacts.lookup_app_l _ extra _ _ E) in Hnew. now left.
  - rewrite (DatabaseFacts.lookup_app_r _ extra _ E) in Hnew.
    destruct (Database.lookup extra o) as [doc|] eqn:E'; [|discriminate].
    apply DatabaseFacts.lookup_In in E'.
    rewrite Forall_forall in Hall.
    destruct (Hall _ E') as [(req & -> & Hd)|(p' & -> & Hd)];
      cbn in Hd; subst doc; injection Hnew as <-; eauto.
Qed.

End Frame.

(** ** Job submission *)

Section Submission.
Local Open Scope list_scope.

Lemma stored_job_created (d : Database.t) c j :
  stored_job
    (Some (Database.update d "renderjob"
             (c ++ [(Database.fresh_id c, DRenderJob j)])))
    (Database.fresh_id c) = Some j.
Proof.
  unfold stored_job. rewrite coll_update. cbn [String.eqb Ascii.eqb Bool.eqb].
  rewrite DatabaseFacts.lookup_app_r by apply DatabaseFacts.fresh_id_fresh.
  simpl. now rewrite N.eqb_refl.
Qed.

Lemma stored_job_fresh d :
  stored_job (Some d) (Database.fresh_id (d "renderjob")) = None.
Proof.
  unfold stored_job. cbn [coll].
  now rewrite DatabaseFacts.fresh_id_fresh.
Qed.

Lemma stored_project_created (d : Database.t) c p :
  stored_project
    (Some (Database.update d "project"
             (c ++ [(Database.fresh_id c, DProject p)])))
    (Database.fresh_id c) = Some p.
Proof.
  unfold stored_project. rewrite coll_update.
  cbn [String.eqb Ascii.eqb Bool.eqb].
  rewrite DatabaseFacts.lookup_app_r by apply DatabaseFacts.fresh_id_fresh.
  simpl. now rewrite N.eqb_refl.
Qed.

Lemma stored_project_fresh d :
  stored_project (Some d) (Database.fresh_id (d "project")) = None.
Proof.
  unfold stored_project. cbn [coll].
  now rewrite DatabaseFacts.fresh_id_fresh.
Qed.

(** What a submission does when a database is present. *)
Lemma script_to_video_some req d :
  script_to_video req (Some d)
  = (Ok (JObj
       [ ("project_id", JStr (Bson.to_str (Database.fresh_id (d "project"))));
         ("job_id", JStr (Bson.to_str (Database.fresh_id (d "renderjob"))));
         ("status", JStr "completed");
         ("output_url", JStr sample_output_url) ]),
     Some (Database.update
             (Database.update d "project"
                (d "project"
                 ++ [(Database.fresh_id (d "project"),
                      DProject (script_project req))]))
             "renderjob"
             (d "renderjob"
              ++ [(Database.fresh_id (d "renderjob"),
                   DRenderJob
                     (script_job
                        (Bson.to_str (Database.fresh_id (d "project")))
                        req))]))).
Proof. reflexivity. Qed.

Lemma ai_edit_some req d :
  ai_edit req (Some d)
  = (Ok (JObj
       [ ("job_id", JStr (Bson.to_str (Database.fresh_id (d "renderjob"))));
         ("status", JStr "completed");
         ("diff", simulated_diff);
         ("preview_url", JStr edited_preview_url) ]),
     Some (Database.update d "renderjob"
             (d "renderjob"
              ++ [(Database.fresh_id (d "renderjob"),
                   DRenderJob (edit_job req))]))).
Proof. reflexivity. Qed.

Lemma submission_none r : is_submission r = true ->
  handle r None = (Raise PersistenceError, None).
Proof. destruct r; try discriminate; reflexivity. Qed.

End Submission.

(** C1, as stated, fails: the job that [script_to_video] stores for the
    sample request in an empty database is stored with status [completed],
    not [queued]. *)
Lemma C1_script_job_is_not_stored_queued :
  exists j,
    handle (ScriptToVideo Sample.launch) Sample.empty
      = (Ok Sample.launch_response,
         snd (handle (ScriptToVideo Sample.launch) Sample.empty)) /\
    json_get Sample.launch_response "job_id" = Some (JStr (Bson.to_str 1%N)) /\
    stored_job (snd (handle (ScriptToVideo Sample.launch) Sample.empty)) 1%N
      = Some j /\
    status j = "completed" /\
    status j <> "queued".
Proof.
  eexists. repeat split; try reflexivity. cbn. discriminate.
Qed.

(** C1, amended: for every successful job submission (script-to-video or
    edit) the response names a job id under which a RenderJob record is
    stored that was not there before; the record is stored with status
    [completed] and progress 100 at submission time, and it is found
    unchanged after any further requests, so no [queued] or [running]
    state is ever stored for it. *)
Theorem C1_submission_stores_completed_job r w resp w' :
  is_submission r = true ->
  handle r w = (Ok resp, w') ->
  exists o j,
    json_get resp "job_id" = Some (JStr (Bson.to_str o)) /\
    stored_job w o = None /\
    stored_job w' o = Some j /\
    status j = "completed" /\
    progress j = 100%Z /\
    forall rs, stored_job (run rs w') o = Some j.
Proof.
  intros Hsub H.
  destruct w as [d|]; [|rewrite submission_none in H by assumption; discriminate].
  destruct r; try discriminate; cbn [handle] in H.
  - rewrite script_to_video_some in H. injection H as <- <-.
    exists (Database.fresh_id (d "renderjob")). eexists.
    split; [reflexivity|]. split; [apply stored_job_fresh|].
    assert (Hj := stored_job_created
                    (Database.update d "project"
                       (d "project" ++ [(Database.fresh_id (d "project"),
                                         DProject (script_project req))])%list)
                    (d "renderjob")
                    (script_job (Bson.to_str (Database.fresh_id (d "project")))
                       req)).
    split; [exact Hj|]. split; [reflexivity|]. split; [reflexivity|].
    intros rs. now apply run_keeps_job.
  - rewrite ai_edit_some in H. injection H as <- <-.
    exists (Database.fresh_id (d "renderjob")). eexists.
    split; [reflexivity|]. split; [apply stored_job_fresh|].
    assert (Hj := stored_job_created d (d "renderjob") (edit_job req)).
    split; [exact Hj|]. split; [reflexivity|]. split; [reflexivity|].
    intros rs. now apply run_keeps_job.
Qed.

(** The amended C1 at the sample script-to-video request on an empty
    database. *)
Lemma C1_submission_stores_completed_job_witness :
  exists o j,
    json_get Sample.launch_response "job_id" = Some (JStr (Bson.to_str o)) /\
    stored_job Sample.empty o = None /\
    stored_job (snd (handle (ScriptToVideo Sample.launch) Sample.empty)) o
      = Some j /\
    status j = "completed" /\
    progress j = 100%Z /\
    forall rs,
      stored_job
        (run rs (snd (handle (ScriptToVideo Sample.launch) Sample.empty))) o
      = Some j.
Proof.
  apply (C1_submission_stores_completed_job
           (ScriptToVideo Sample.launch) Sample.empty
           Sample.launch_response
           (snd (handle (ScriptToVideo Sample.launch) Sample.empty))).
  - reflexivity.
  - reflexivity.
Defined.

(** C2, as stated, fails: a client project whose timeline names the media
    id [m-404] while its media list is empty is stored under id 1; an
    edit submitted for that project is answered successfully and a
    RenderJob record for it is created. *)
Lemma C2_edit_accepts_missing_media :
  let w := run [CreateProject Sample.dangling] Sample.empty in
  stored_project w 1%N = Some Sample.dangling /\
  references_missing_media Sample.dangling = true /\
  edit_project_id Sample.trim = Bson.to_str 1%N /\
  stored_job w 1%N = None /\
  exists resp j,
    fst (handle (AiEdit Sample.trim) w) = Ok resp /\
    stored_job (snd (handle (AiEdit Sample.trim) w)) 1%N = Some j /\
    project_id j = Bson.to_str 1%N.
Proof.
  cbv zeta. repeat split; try reflexivity.
  eexists. eexists. repeat split; reflexivity.
Qed.

(** C2, amended: no submission is rejected for its timeline.  Whenever a
    database is present, script-to-video and edit succeed and add exactly
    one RenderJob record, whatever the stored projects, their timelines
    and their media lists hold; neither handler reads them. *)
Theorem C2_submission_performs_no_validation (d : Database.t) :
  (forall req, exists resp d',
      script_to_video req (Some d) = (Ok resp, Some d') /\
      List.length (d' "renderjob") = S (List.length (d "renderjob"))) /\
  (forall req, exists resp d',
      ai_edit req (Some d) = (Ok resp, Some d') /\
      List.length (d' "renderjob") = S (List.length (d "renderjob")) /\
      d' "project" = d "project").
Proof.
  split; intros req.
  - rewrite script_to_video_some. eexists. eexists. split; [reflexivity|].
    cbn. rewrite length_app. simpl. lia.
  - rewrite ai_edit_some. eexists. eexists. split; [reflexivity|].
    cbn. rewrite length_app. simpl. split; [lia | reflexivity].
Qed.

(** ** Job lookup *)

Lemma to_str_id_as_dict o doc :
  to_str_id (Some (Database.as_dict o doc))
  = Some (model_dump doc ++ [("id", JStr (Bson.to_str o))])%list.
Proof. destruct doc; reflexivity. Qed.

(** C3, as stated, fails: a job id that is not an object id is answered by
    the 400 error [Invalid job id], and any id is answered by the 500 error
    [Database not available] when no database is configured; neither is a
    stored job or a not-found answer. *)
Lemma C3_lookup_error_other_than_not_found :
  fst (get_render_job "not-an-object-id" Sample.empty)
    = Raise (HTTPException 400 "Invalid job id") /\
  ~ job_or_not_found (fst (get_render_job "not-an-object-id" Sample.empty)) /\
  fst (get_render_job "000000000000000000000001" None)
    = Raise (HTTPException 500 "Database not available") /\
  ~ job_or_not_found (fst (get_render_job "000000000000000000000001" None)).
Proof.
  repeat split; try reflexivity.
  - intros [[doc H]|[detail H]]; cbn in H; discriminate.
  - intros [[doc H]|[detail H]]; cbn in H; discriminate.
Qed.

(** C3, amended: the job lookup leaves the store as it is and, whatever
    the driver does, has exactly four outcomes: error 500 [Database not
    available] when no database is configured; error 400 [Invalid job id]
    when [ObjectId(job_id)] raises or the driver's [find_one] raises;
    error 404 [Job not found] when the driver finds no document; otherwise
    the fetched document passed through [to_str_id].  On the in-memory
    store, [find_one] never raises: the answer is 404 when the id object
    holds fewer than 12 bytes (a 24-character id with whitespace) or
    spells an id no job is stored under, and otherwise the stored
    document with its id in string form under [id]. *)
Theorem C3_lookup_has_four_outcomes (find_one : FindOne) (w : World)
    (job_id : string) :
  snd (get_render_job_via find_one job_id w) = w /\
  ( (w = None /\
     fst (get_render_job_via find_one job_id w)
       = Raise (HTTPException 500 "Database not available")) \/
    (exists d, w = Some d /\
     (Bson.of_str job_id = None \/
      exists oid e, Bson.of_str job_id = Some oid /\
                    find_one (d "renderjob") oid = Raise e) /\
     fst (get_render_job_via find_one job_id w)
       = Raise (HTTPException 400 "Invalid job id")) \/
    (exists d oid doc, w = Some d /\ Bson.of_str job_id = Some oid /\
     find_one (d "renderjob") oid = Ok doc /\ py_not doc = true /\
     fst (get_render_job_via find_one job_id w)
       = Raise (HTTPException 404 "Job not found")) \/
    (exists d oid doc, w = Some d /\ Bson.of_str job_id = Some oid /\
     find_one (d "renderjob") oid = Ok doc /\ py_not doc = false /\
     fst (get_render_job_via find_one job_id w)
       = Ok (opt_dict (to_str_id doc))) ) /\
  ( w = None \/ Bson.of_str job_id = None \/
    (exists d oid, w = Some d /\ Bson.of_str job_id = Some oid /\
     (Bson.as_id oid = None \/
      exists o, Bson.as_id oid = Some o /\
                Database.lookup (d "renderjob") o = None) /\
     fst (get_render_job job_id w)
       = Raise (HTTPException 404 "Job not found")) \/
    (exists d oid o doc, w = Some d /\ Bson.of_str job_id = Some oid /\
     Bson.as_id oid = Some o /\
     Database.lookup (d "renderjob") o = Some doc /\
     fst (get_render_job job_id w)
       = Ok (JObj (model_dump doc ++ [("id", JStr (Bson.to_str o))])%list)) ).
Proof.
  destruct w as [d|].
  2: { split; [reflexivity|]. split; [left; split; reflexivity | now left]. }
  unfold get_render_job, get_render_job_via.
  destruct (Bson.of_str job_id) as [oid|] eqn:Eid.
  2: { split; [reflexivity|]. split; [|right; now left].
       right; left. exists d. split; [reflexivity|]. split; [now left|].
       reflexivity. }
  split; [|split].
  - destruct (find_one (d "renderjob") oid) as [doc|e];
      [destruct (py_not doc)|]; reflexivity.
  - destruct (find_one (d "renderjob") oid) as [doc|e] eqn:Ef.
    + destruct (py_not doc) eqn:Ep.
      * right; right; left. exists d, oid, doc. auto.
      * right; right; right. exists d, oid, doc. auto.
    + right; left. exists d. split; [reflexivity|]. split; [|reflexivity].
      right. exists oid, e. auto.
  - right; right. unfold stored_find_one, Database.find_one.
    destruct (Bson.as_id oid) as [o|] eqn:Eo.
    + destruct (Database.lookup (d "renderjob") o) as [doc|] eqn:Edoc.
      * right. exists d, oid, o, doc.
        repeat (split; [first [reflexivity | assumption]|]).
        cbn [option_map]. unfold Database.as_dict at 1. cbn [py_not].
        now rewrite to_str_id_as_dict.
      * left. exists d, oid.
        repeat (split; [first [reflexivity | assumption]|]).
        split; [|reflexivity]. right. exists o. auto.
    + left. exists d, oid.
      repeat (split; [first [reflexivity | assumption]|]).
      split; [now left | reflexivity].
Qed.

(** A 24-character id with whitespace is no [InvalidId]: the id object
    holds 8 bytes, the store finds nothing for it, and the answer is 404;
    a driver that raises turns every well-formed id into a 400. *)
Example whitespace_id_is_not_found :
  Bson.of_str "00 00 00 00 00 00 00 00 " = Some [0; 0; 0; 0; 0; 0; 0; 0]%N /\
  fst (get_render_job "00 00 00 00 00 00 00 00 " Sample.with_queued)
    = Raise (HTTPException 404 "Job not found") /\
  fst (get_project "0000000000000000000000  " Sample.with_queued)
    = Raise (HTTPException 404 "Project not found") /\
  fst (get_render_job "000000000000000000000001" Sample.with_queued)
    = Ok (JObj (model_dump (DRenderJob Sample.queued_job)
                ++ [("id", JStr "000000000000000000000001")])%list) /\
  fst (get_render_job_via MoreSamples.broken_find_one
         "000000000000000000000001" Sample.with_queued)
    = Raise (HTTPException 400 "Invalid job id").
Proof. repeat split; reflexivity. Qed.

(** ** Invariants of stored jobs and projects *)

(** C4: a job submitted during a run of requests (absent before the run,
    present after it) has its progress within 0..100, and after any
    further requests the same job is still stored with a progress that is
    within 0..100 and not smaller. *)
Theorem C4_progress_bounded_and_monotone (w : World) (rs : list Request)
    (o : Bson.ObjectId) (j : RenderJob) :
  stored_job w o = None ->
  stored_job (run rs w) o = Some j ->
  (0 <= progress j <= 100)%Z /\
  forall rs', exists j',
    stored_job (run rs' (run rs w)) o = Some j' /\
    (progress j <= progress j')%Z /\
    (0 <= progress j' <= 100)%Z.
Proof.
  intros Hold Hnew.
  destruct (run_new_job rs w o j Hold Hnew) as (_ & Hp & _).
  split; [lia|].
  intros rs'. exists j. split; [now apply run_keeps_job | lia].
Qed.

(** C4 at the job that the sample script-to-video request creates in an
    empty database. *)
Lemma C4_progress_bounded_and_monotone_witness :
  (0 <= progress (script_job (Bson.to_str 1%N) Sample.launch) <= 100)%Z /\
  forall rs', exists j',
    stored_job (run rs' (run [ScriptToVideo Sample.launch] Sample.empty)) 1%N
      = Some j' /\
    (progress (script_job (Bson.to_str 1%N) Sample.launch) <= progress j')%Z /\
    (0 <= progress j' <= 100)%Z.
Proof.
  apply (C4_progress_bounded_and_monotone
           Sample.empty [ScriptToVideo Sample.launch] 1%N
           (script_job (Bson.to_str 1%N) Sample.launch)).
  - reflexivity.
  - reflexivity.
Defined.





(** C6, as stated, fails: project creation stores a client project whose
    settings carry an empty platform list exactly as sent. *)
Lemma C6_create_project_stores_empty_platforms :
  fst (handle (CreateProject Sample.no_platforms) Sample.empty)
    = Ok (JObj [("id", JStr (Bson.to_str 1%N))]) /\
  stored_project (snd (handle (CreateProject Sample.no_platforms) Sample.empty))
    1%N = Some Sample.no_platforms /\
  platforms Sample.no_platforms = Some [] /\
  platforms_nonempty Sample.no_platforms = false.
Proof. repeat split; reflexivity. Qed.

(** C6, amended: a project found in the store after a request is either a
    project that was stored, unchanged, before the request; or the project
    created by script-to-video, whose platform list is the one-element
    list of the requested platform and so non-empty; or the project
    exactly as the client sent it to project creation, whose settings are
    stored unvalidated and so have a non-empty platform list only when the
    client's settings do. *)
Theorem C6_platforms_after_request (r : Request) (w : World)
    (o : Bson.ObjectId) (p : Project) :
  stored_project (snd (handle r w)) o = Some p ->
  stored_project w o = Some p \/
  (exists req, r = ScriptToVideo req /\
               platforms p = Some [JStr (platform req)] /\
               platforms_nonempty p = true) \/
  r = CreateProject p.
Proof.
  intros H. destruct (handle_project_origin r w o p H) as [H0|[(req & -> & ->)|H0]].
  - now left.
  - right; left. exists req. repeat split.
  - now right; right.
Qed.

(** The amended C6 at the project that the sample script-to-video request
    creates in an empty database. *)
Lemma C6_platforms_after_request_witness :
  stored_project Sample.empty 1%N = Some (script_project Sample.launch) \/
  (exists req, ScriptToVideo Sample.launch = ScriptToVideo req /\
               platforms (script_project Sample.launch)
                 = Some [JStr (platform req)] /\
               platforms_nonempty (script_project Sample.launch) = true) \/
  ScriptToVideo Sample.launch = CreateProject (script_project Sample.launch).
Proof.
  apply (C6_platforms_after_request
           (ScriptToVideo Sample.launch) Sample.empty 1%N
           (script_project Sample.launch)).
  reflexivity.
Defined.

(** C7: a job-creating request (script-to-video or edit) leaves every
    document of the project collection as it was: whatever was stored
    under an id is found under it, unchanged, afterwards. *)
Theorem C7_submission_leaves_projects_unchanged (r : Request) (w : World)
    (o : Bson.ObjectId) (doc : Document) :
  is_submission r = true ->
  Database.lookup (coll w "project") o = Some doc ->
  Database.lookup (coll (snd (handle r w)) "project") o = Some doc.
Proof.
  intros _ H. now apply handle_keeps_document.
Qed.

(** C7 at a client project stored under id 1, followed by the sample
    script-to-video request. *)
Lemma C7_submission_leaves_projects_unchanged_witness :
  Database.lookup
    (coll (snd (handle (ScriptToVideo Sample.launch)
                  (run [CreateProject Sample.dangling] Sample.empty)))
       "project") 1%N
  = Some (DProject Sample.dangling).
Proof.
  apply (C7_submission_leaves_projects_unchanged
           (ScriptToVideo Sample.launch)
           (run [CreateProject Sample.dangling] Sample.empty) 1%N
           (DProject Sample.dangling)).
  - reflexivity.
  - reflexivity.
Defined.

(** ** Cancellation *)

(** C8, as stated, fails: the application has no cancel request.  With a
    job in status [queued] stored under id 1, every request of the
    application leaves that job stored as it is, still [queued]; none
    takes it to [cancelled]. *)
Lemma C8_no_request_cancels_a_queued_job :
  stored_job Sample.with_queued 1%N = Some Sample.queued_job /\
  status Sample.queued_job = "queued" /\
  ~ exists r j,
      stored_job (snd (handle r Sample.with_queued)) 1%N = Some j /\
      status j = "cancelled".
Proof.
  split; [reflexivity|]. split; [reflexivity|].
  intros (r & j & Hj & Hs).
  rewrite (handle_keeps_job r Sample.with_queued 1%N Sample.queued_job) in Hj
    by reflexivity.
  injection Hj as <-. discriminate.
Qed.

(** C8, amended: no request changes a stored job.  A RenderJob record
    that is stored is found under the same id, with the same status and
    every other field unchanged, after any sequence of requests; there is
    no transition to [cancelled], from [queued] or from any other
    status. *)
Theorem C8_no_request_changes_a_stored_job (rs : list Request) (w : World)
    (o : Bson.ObjectId) (j : RenderJob) :
  stored_job w o = Some j ->
  stored_job (run rs w) o = Some j /\
  forall j', stored_job (run rs w) o = Some j' -> status j' = status j.
Proof.
  intros H. pose proof (run_keeps_job rs w o j H) as Hrun.
  split; [exact Hrun|]. intros j' Hj'. congruence.
Qed.

(** The amended C8 at the queued job under id 1, followed by an edit and
    a script-to-video request. *)
Lemma C8_no_request_changes_a_stored_job_witness :
  stored_job
    (run [AiEdit Sample.trim; ScriptToVideo Sample.launch] Sample.with_queued)
    1%N = Some Sample.queued_job /\
  forall j',
    stored_job
      (run [AiEdit Sample.trim; ScriptToVideo Sample.launch]
         Sample.with_queued) 1%N = Some j' ->
    status j' = status Sample.queued_job.
Proof.
  apply (C8_no_request_changes_a_stored_job
           [AiEdit Sample.trim; ScriptToVideo Sample.launch]
           Sample.with_queued 1%N Sample.queued_job).
  reflexivity.
Defined.

(** ** Edit commands *)

(** C9: whatever two edit requests are submitted, and whatever the two
    databases hold, both are answered successfully with the same [diff]
    value, the fixed [simulated_diff]; the command text has no influence
    on it. *)
Theorem C9_edit_diff_is_fixed (d1 d2 : Database.t)
    (req1 req2 : EditCommandRequest) :
  exists resp1 resp2 d1' d2',
    ai_edit req1 (Some d1) = (Ok resp1, Some d1') /\
    ai_edit req2 (Some d2) = (Ok resp2, Some d2') /\
    json_get resp1 "diff" = Some simulated_diff /\
    json_get resp2 "diff" = json_get resp1 "diff".
Proof.
  rewrite !ai_edit_some. do 4 eexists. repeat split; reflexivity.
Qed.

(** Two different commands, sent to two different stores, get the same
    diff. *)
Example trim_and_recolor_get_the_same_diff :
  match fst (ai_edit Sample.trim Sample.empty),
        fst (ai_edit Sample.recolor Sample.with_queued) with
  | Ok a, Ok b =>
      json_get a "diff" = json_get b "diff" /\
      command Sample.trim <> command Sample.recolor
  | _, _ => False
  end.
Proof. cbn. split; [reflexivity | discriminate]. Qed.

(** ** Script excerpt *)

(** C10: script-to-video succeeds whenever a database is present, and the
    project it stores has a timeline whose [script_excerpt] is the first
    400 characters of the submitted script: a prefix of the script of
    length min(400, length of the script), which is the whole script when
    the script has at most 400 characters. *)
Theorem C10_script_excerpt_is_first_400 (d : Database.t)
    (req : ScriptToVideoRequest) :
  exists resp d' o p tl excerpt,
    script_to_video req (Some d) = (Ok resp, Some d') /\
    json_get resp "project_id" = Some (JStr (Bson.to_str o)) /\
    stored_project (Some d) o = None /\
    stored_project (Some d') o = Some p /\
    timeline p = Some tl /\
    PyDict.get tl "script_excerpt" = Some (JStr excerpt) /\
    (exists rest, script req = excerpt ++ rest) /\
    String.length excerpt = Nat.min 400 (String.length (script req)) /\
    (String.length (script req) <= 400 -> excerpt = script req).
Proof.
  rewrite script_to_video_some.
  exists (JObj
    [ ("project_id", JStr (Bson.to_str (Database.fresh_id (d "project"))));
      ("job_id", JStr (Bson.to_str (Database.fresh_id (d "renderjob"))));
      ("status", JStr "completed");
      ("output_url", JStr sample_output_url) ]).
  eexists. exists (Database.fresh_id (d "project")).
  exists (script_project req). eexists.
  exists (py_slice_to 400 (script req)).
  split; [reflexivity|]. split; [reflexivity|].
  split; [apply stored_project_fresh|].
  split.
  { unfold stored_project, coll, Database.update.
    cbn [String.eqb Ascii.eqb Bool.eqb].
    rewrite DatabaseFacts.lookup_app_r by apply DatabaseFacts.fresh_id_fresh.
    simpl. now rewrite N.eqb_refl. }
  split; [reflexivity|]. split; [reflexivity|].
  split; [apply SliceFacts.py_slice_to_prefix|].
  split; [apply SliceFacts.py_slice_to_length|].
  apply SliceFacts.py_slice_to_short.
Qed.

(** C10 at the sample request, whose script of 11 characters is stored
    whole. *)
Lemma C10_script_excerpt_is_first_400_witness :
  exists resp d' o p tl excerpt,
    script_to_video Sample.launch Sample.empty = (Ok resp, Some d') /\
    json_get resp "project_id" = Some (JStr (Bson.to_str o)) /\
    stored_project Sample.empty o = None /\
    stored_project (Some d') o = Some p /\
    timeline p = Some tl /\
    PyDict.get tl "script_excerpt" = Some (JStr excerpt) /\
    excerpt = script Sample.launch.
Proof.
  destruct (C10_script_excerpt_is_first_400 Database.empty Sample.launch)
    as (resp & d' & o & p & tl & excerpt & H1 & H2 & H3 & H4 & H5 & H6 & _ & _ & H9).
  exists resp, d', o, p, tl, excerpt.
  repeat split; try assumption.
  apply H9. vm_compute. lia.
Defined.

(** A script of 450 characters is stored cut down to its first 400. *)
Example long_script_is_truncated :
  exists p tl,
    stored_project (snd (script_to_video Sample.long_launch Sample.empty)) 1%N
      = Some p /\
    timeline p = Some tl /\
    PyDict.get tl "script_excerpt"
      = Some (JStr (string_of_list_ascii (repeat "x"%char 400))) /\
    String.length (script Sample.long_launch) = 450.
Proof. do 2 eexists. repeat split; vm_compute; reflexivity. Qed.

(** ** A submitted job can be fetched *)

(** The job id that script-to-video returns, handed to the job lookup,
    fetches the job just stored: completed, with progress 100. *)
Lemma submitted_job_is_found (d : Database.t) (req : ScriptToVideoRequest) :
  (Database.fresh_id (d "renderjob") < 2 ^ 96)%N ->
  exists resp d' job_id doc,
    script_to_video req (Some d) = (Ok resp, Some d') /\
    json_get resp "job_id" = Some (JStr job_id) /\
    fst (get_render_job job_id (Some d')) = Ok (JObj doc) /\
    PyDict.get doc "status" = Some (JStr "completed") /\
    PyDict.get doc "progress" = Some (JInt 100).
Proof.
  intros Hbound. rewrite script_to_video_some.
  do 4 eexists. split; [reflexivity|]. split; [reflexivity|].
  unfold get_render_job, get_render_job_via, stored_find_one.
  rewrite BsonFacts.of_str_to_str. unfold Database.find_one.
  rewrite BsonFacts.as_id_binary, N.mod_small by exact Hbound.
  unfold Database.update.
  cbn [String.eqb Ascii.eqb Bool.eqb].
  rewrite DatabaseFacts.lookup_app_r by apply DatabaseFacts.fresh_id_fresh.
  cbn [Database.lookup]. rewrite N.eqb_refl.
  cbn [option_map]. unfold Database.as_dict at 1. cbn [py_not].
  rewrite to_str_id_as_dict.
  split; [reflexivity|]. split; reflexivity.
Qed.

(** ** Dictionary operations *)

Module PyDictFacts.
Import PyDict.
Local Open Scope list_scope.

Lemma get_set_same (d : Dict) k v : get (set d k v) k = Some v.
Proof.
  induction d as [|[k' v'] d IH]; simpl.
  - now rewrite String.eqb_refl.
  - destruct (String.eqb_spec k' k) as [->|Hne]; simpl.
    + now rewrite String.eqb_refl.
    + destruct (String.eqb_spec k' k); [contradiction | exact IH].
Qed.

Lemma get_set_other (d : Dict) k v k' :
  k' <> k -> get (set d k v) k' = get d k'.
Proof.
  intros Hne. induction d as [|[k0 v0] d IH]; simpl.
  - destruct (String.eqb_spec k k'); [congruence | reflexivity].
  - destruct (String.eqb_spec k0 k) as [->|H0]; simpl.
    + destruct (String.eqb_spec k k'); [congruence | reflexivity].
    + destruct (String.eqb_spec k0 k'); [reflexivity | exact IH].
Qed.

Lemma get_del_other (d : Dict) k k' :
  k' <> k -> get (del d k) k' = get d k'.
Proof.
  intros Hne. induction d as [|[k0 v0] d IH]; simpl; [reflexivity|].
  destruct (String.eqb_spec k0 k) as [->|H0]; simpl.
  - destruct (String.eqb_spec k k'); [congruence | reflexivity].
  - destruct (String.eqb_spec k0 k'); [reflexivity | exact IH].
Qed.

Lemma get_absent (d : Dict) k : ~ In k (map fst d) -> get d k = None.
Proof.
  induction d as [|[k0 v0] d IH]; simpl; [reflexivity|].
  intros H. destruct (String.eqb_spec k0 k); [tauto | apply IH; tauto].
Qed.

Lemma get_del_same (d : Dict) k : unique_keys d -> get (del d k) k = None.
Proof.
  unfold unique_keys.
  induction d as [|[k0 v0] d IH]; simpl; intros H; [reflexivity|].
  inversion H as [|? ? Hnotin Hrest]; subst.
  destruct (String.eqb_spec k0 k) as [->|H0]; simpl.
  - now apply get_absent.
  - destruct (String.eqb_spec k0 k); [contradiction | auto].
Qed.

Lemma keys_set (d : Dict) k v k' :
  In k' (map fst (set d k v)) -> In k' (map fst d) \/ k' = k.
Proof.
  induction d as [|[k0 v0] d IH]; simpl.
  - intros [<-|[]]. now right.
  - destruct (String.eqb_spec k0 k) as [->|H0]; simpl.
    + tauto.
    + intros [<-|H]; [tauto | destruct (IH H); tauto].
Qed.

Lemma unique_keys_set (d : Dict) k v :
  unique_keys d -> unique_keys (set d k v).
Proof.
  unfold unique_keys.
  induction d as [|[k0 v0] d IH]; simpl; intros H.
  - constructor; [simpl; tauto | constructor].
  - inversion H as [|? ? Hnotin Hrest]; subst.
    destruct (String.eqb_spec k0 k) as [->|H0]; simpl.
    + now constructor.
    + constructor; [|auto].
      intros Hin. apply keys_set in Hin. destruct Hin; [tauto | congruence].
Qed.

End PyDictFacts.

(** ** Documents handed to clients *)

(** X1: a fetched document whose [_id] is an object id comes back from
    [to_str_id] without the [_id] key, with the 24-character string form
    of the id under [id], and with every other field as it was. *)
Theorem to_str_id_replaces_the_object_id (d : Dict) (o : Bson.ObjectId) :
  unique_keys d ->
  PyDict.get d "_id" = Some (JOid o) ->
  exists r,
    to_str_id (Some d) = Some r /\
    PyDict.get r "_id" = None /\
    PyDict.get r "id" = Some (JStr (Bson.to_str o)) /\
    String.length (Bson.to_str o) = 24 /\
    forall k, k <> "_id" -> k <> "id" -> PyDict.get r k = PyDict.get d k.
Proof.
  intros Hu Hid. unfold to_str_id. rewrite Hid.
  eexists. split; [reflexivity|]. split; [|split; [|split]].
  - apply PyDictFacts.get_del_same. now apply PyDictFacts.unique_keys_set.
  - rewrite PyDictFacts.get_del_other by discriminate.
    apply PyDictFacts.get_set_same.
  - apply BsonFacts.to_str_length.
  - intros k H1 H2.
    rewrite PyDictFacts.get_del_other by exact H1.
    now apply PyDictFacts.get_set_other.
Qed.

(** X1 at the queued sample job fetched under id 7. *)
Lemma to_str_id_replaces_the_object_id_witness :
  exists r,
    to_str_id (Some MoreSamples.fetched_job) = Some r /\
    PyDict.get r "_id" = None /\
    PyDict.get r "id" = Some (JStr (Bson.to_str 7%N)) /\
    String.length (Bson.to_str 7%N) = 24 /\
    forall k, k <> "_id" -> k <> "id" ->
              PyDict.get r k = PyDict.get MoreSamples.fetched_job k.
Proof.
  apply (to_str_id_replaces_the_object_id MoreSamples.fetched_job 7%N).
  - unfold unique_keys. cbn.
    repeat (constructor; [cbn; intuition discriminate|]). constructor.
  - reflexivity.
Defined.

(** X2: [to_str_id] is idempotent: converting an already converted
    document changes nothing more, whether the document had an object id,
    another kind of [_id], none at all, or was [None]. *)
Theorem to_str_id_is_idempotent (doc : option Dict) :
  (forall d, doc = Some d -> unique_keys d) ->
  to_str_id (to_str_id doc) = to_str_id doc.
Proof.
  intros Hu. destruct doc as [d|]; [|reflexivity].
  specialize (Hu d eq_refl).
  destruct (PyDict.get d "_id") as [v|] eqn:E.
  - destruct v as [| | | | |o| |].
    6: { assert (H1 : to_str_id (Some d)
                      = Some (PyDict.del
                                (PyDict.set d "id" (JStr (Bson.to_str o)))
                                "_id"))
           by (unfold to_str_id; now rewrite E).
         rewrite H1. unfold to_str_id.
         rewrite PyDictFacts.get_del_same
           by now apply PyDictFacts.unique_keys_set.
         reflexivity. }
    all: assert (H1 : to_str_id (Some d) = Some d)
           by (unfold to_str_id; now rewrite E).
    all: now rewrite !H1.
  - assert (H1 : to_str_id (Some d) = Some d)
      by (unfold to_str_id; now rewrite E).
    now rewrite !H1.
Qed.

(** X2 at the queued sample job fetched under id 7. *)
Lemma to_str_id_is_idempotent_witness :
  to_str_id (to_str_id (Some MoreSamples.fetched_job))
  = to_str_id (Some MoreSamples.fetched_job).
Proof.
  apply (to_str_id_is_idempotent (Some MoreSamples.fetched_job)).
  intros d [= <-]. unfold unique_keys. cbn.
  repeat (constructor; [cbn; intuition discriminate|]). constructor.
Defined.

(** ** Lookups by id *)

Section Lookups.
Local Open Scope list_scope.

Lemma find_one_binary (c : Database.Collection) o :
  (o < oid_bound)%N ->
  Database.find_one c (Bson.binary o)
  = option_map (Database.as_dict o) (Database.lookup c o).
Proof.
  intros H. unfold Database.find_one.
  rewrite BsonFacts.as_id_binary. now rewrite N.mod_small.
Qed.

(** A document of the project collection is returned by [get_project]
    under the string form of its id. *)
Lemma get_project_found (d : Database.t) o doc :
  (o < oid_bound)%N ->
  Database.lookup (d "project") o = Some doc ->
  get_project (Bson.to_str o) (Some d)
  = (Ok (JObj (model_dump doc ++ [("id", JStr (Bson.to_str o))])), Some d).
Proof.
  intros Hb Hdoc. unfold get_project, get_project_via, stored_find_one.
  rewrite BsonFacts.of_str_to_str, find_one_binary by exact Hb.
  rewrite Hdoc. cbn [option_map].
  unfold Database.as_dict at 1. cbn [py_not].
  now rewrite to_str_id_as_dict.
Qed.

Lemma get_render_job_found (d : Database.t) o doc :
  (o < oid_bound)%N ->
  Database.lookup (d "renderjob") o = Some doc ->
  get_render_job (Bson.to_str o) (Some d)
  = (Ok (JObj (model_dump doc ++ [("id", JStr (Bson.to_str o))])), Some d).
Proof.
  intros Hb Hdoc. unfold get_render_job, get_render_job_via, stored_find_one.
  rewrite BsonFacts.of_str_to_str, find_one_binary by exact Hb.
  rewrite Hdoc. cbn [option_map].
  unfold Database.as_dict at 1. cbn [py_not].
  now rewrite to_str_id_as_dict.
Qed.

Lemma lookup_appended (c : Database.Collection) doc :
  Database.lookup (c ++ [(Database.fresh_id c, doc)]) (Database.fresh_id c)
  = Some doc.
Proof.
  rewrite DatabaseFacts.lookup_app_r by apply DatabaseFacts.fresh_id_fresh.
  simpl. now rewrite N.eqb_refl.
Qed.

Lemma create_project_some p d :
  create_project p (Some d)
  = (Ok (JObj [("id", JStr (Bson.to_str (Database.fresh_id (d "project"))))]),
     Some (Database.update d "project"
             (d "project" ++ [(Database.fresh_id (d "project"), DProject p)]))).
Proof. reflexivity. Qed.

End Lookups.

(** X3: the project lookup leaves the store as it is and, whatever the
    driver does, has exactly four outcomes, tested in this order: error
    500 [Database not available] without a database; error 400 [Invalid
    project id] when [ObjectId(project_id)] raises or the driver's
    [find_one] raises; error 404 [Project not found] when the driver finds
    no document; otherwise the fetched document passed through
    [to_str_id].  On the in-memory store, [find_one] never raises: the
    answer is 404 when the id object holds fewer than 12 bytes (a
    24-character id with whitespace) or spells an id no project is stored
    under, and otherwise the stored document with its id in string form
    under [id]. *)
Theorem get_project_has_four_outcomes (find_one : FindOne) (w : World)
    (project_id : string) :
  snd (get_project_via find_one project_id w) = w /\
  ( (w = None /\
     fst (get_project_via find_one project_id w)
       = Raise (HTTPException 500 "Database not available")) \/
    (exists d, w = Some d /\
     (Bson.of_str project_id = None \/
      exists oid e, Bson.of_str project_id = Some oid /\
                    find_one (d "project") oid = Raise e) /\
     fst (get_project_via find_one project_id w)
       = Raise (HTTPException 400 "Invalid project id")) \/
    (exists d oid doc, w = Some d /\ Bson.of_str project_id = Some oid /\
     find_one (d "project") oid = Ok doc /\ py_not doc = true /\
     fst (get_project_via find_one project_id w)
       = Raise (HTTPException 404 "Project not found")) \/
    (exists d oid doc, w = Some d /\ Bson.of_str project_id = Some oid /\
     find_one (d "project") oid = Ok doc /\ py_not doc = false /\
     fst (get_project_via find_one project_id w)
       = Ok (opt_dict (to_str_id doc))) ) /\
  ( w = None \/ Bson.of_str project_id = None \/
    (exists d oid, w = Some d /\ Bson.of_str project_id = Some oid /\
     (Bson.as_id oid = None \/
      exists o, Bson.as_id oid = Some o /\
                Database.lookup (d "project") o = None) /\
     fst (get_project project_id w)
       = Raise (HTTPException 404 "Project not found")) \/
    (exists d oid o doc, w = Some d /\ Bson.of_str project_id = Some oid /\
     Bson.as_id oid = Some o /\
     Database.lookup (d "project") o = Some doc /\
     fst (get_project project_id w)
       = Ok (JObj (model_dump doc ++ [("id", JStr (Bson.to_str o))])%list)) ).
Proof.
  destruct w as [d|].
  2: { split; [reflexivity|]. split; [left; split; reflexivity | now left]. }
  unfold get_project, get_project_via.
  destruct (Bson.of_str project_id) as [oid|] eqn:Eid.
  2: { split; [reflexivity|]. split; [|right; now left].
       right; left. exists d. split; [reflexivity|]. split; [now left|].
       reflexivity. }
  split; [|split].
  - destruct (find_one (d "project") oid) as [doc|e];
      [destruct (py_not doc)|]; reflexivity.
  - destruct (find_one (d "project") oid) as [doc|e] eqn:Ef.
    + destruct (py_not doc) eqn:Ep.
      * right; right; left. exists d, oid, doc. auto.
      * right; right; right. exists d, oid, doc. auto.
    + right; left. exists d. split; [reflexivity|]. split; [|reflexivity].
      right. exists oid, e. auto.
  - right; right. unfold stored_find_one, Database.find_one.
    destruct (Bson.as_id oid) as [o|] eqn:Eo.
    + destruct (Database.lookup (d "project") o) as [doc|] eqn:Edoc.
      * right. exists d, oid, o, doc.
        repeat (split; [first [reflexivity | assumption]|]).
        cbn [option_map]. unfold Database.as_dict at 1. cbn [py_not].
        now rewrite to_str_id_as_dict.
      * left. exists d, oid.
        repeat (split; [first [reflexivity | assumption]|]).
        split; [|reflexivity]. right. exists o. auto.
    + left. exists d, oid.
      repeat (split; [first [reflexivity | assumption]|]).
      split; [now left | reflexivity].
Qed.

(** X4: creating a project and then fetching it with the returned id gives
    back every field of the project as the client sent it, plus the id;
    the lookup changes nothing.  (The store must still have a 12-byte id
    to hand out.) *)
Theorem created_project_is_found (p : Project) (d : Database.t) :
  (Database.fresh_id (d "project") < oid_bound)%N ->
  exists resp d' id,
    create_project p (Some d) = (Ok resp, Some d') /\
    json_get resp "id" = Some (JStr id) /\
    get_project id (Some d')
    = (Ok (JObj (model_dump (DProject p) ++ [("id", JStr id)])%list),
       Some d').
Proof.
  intros Hb. rewrite create_project_some.
  do 3 eexists. split; [reflexivity|]. split; [reflexivity|].
  apply get_project_found; [exact Hb|].
  unfold Database.update. cbn [String.eqb Ascii.eqb Bool.eqb].
  apply lookup_appended.
Qed.

(** X4 at the sample project with a dangling clip, in an empty
    database. *)
Lemma created_project_is_found_witness :
  exists resp d' id,
    create_project Sample.dangling (Some Database.empty) = (Ok resp, Some d') /\
    json_get resp "id" = Some (JStr id) /\
    get_project id (Some d')
    = (Ok (JObj (model_dump (DProject Sample.dangling)
                 ++ [("id", JStr id)])%list),
       Some d').
Proof.
  apply (created_project_is_found Sample.dangling Database.empty).
  vm_compute. reflexivity.
Defined.

(** X5: after script-to-video, both ids of the response resolve: the
    project id fetches a project with the requested title, no media and
    the requested platform as its only platform, and the job id fetches a
    render job that points back to that project and agrees with the
    response on status and output url. *)
Theorem script_to_video_ids_resolve (req : ScriptToVideoRequest)
    (d : Database.t) :
  (Database.fresh_id (d "project") < oid_bound)%N ->
  (Database.fresh_id (d "renderjob") < oid_bound)%N ->
  exists resp d' pid jid pdoc jdoc,
    script_to_video req (Some d) = (Ok resp, Some d') /\
    json_get resp "project_id" = Some (JStr pid) /\
    json_get resp "job_id" = Some (JStr jid) /\
    get_project pid (Some d') = (Ok (JObj pdoc), Some d') /\
    PyDict.get pdoc "title" = Some (JStr (stv_title req)) /\
    PyDict.get pdoc "media_ids" = Some (JList []) /\
    (exists st, PyDict.get pdoc "settings" = Some (JObj st) /\
                PyDict.get st "platforms"
                  = Some (JList [JStr (platform req)])) /\
    get_render_job jid (Some d') = (Ok (JObj jdoc), Some d') /\
    PyDict.get jdoc "project_id" = Some (JStr pid) /\
    PyDict.get jdoc "job_type" = Some (JStr "render") /\
    PyDict.get jdoc "status" = json_get resp "status" /\
    PyDict.get jdoc "output_url" = json_get resp "output_url".
Proof.
  intros Hp Hj. rewrite script_to_video_some.
  eexists. eexists.
  exists (Bson.to_str (Database.fresh_id (d "project"))).
  exists (Bson.to_str (Database.fresh_id (d "renderjob"))).
  eexists. eexists.
  split; [reflexivity|]. split; [reflexivity|]. split; [reflexivity|].
  split.
  { apply get_project_found; [exact Hp|].
    unfold Database.update. cbn [String.eqb Ascii.eqb Bool.eqb].
    apply lookup_appended. }
  split; [reflexivity|]. split; [reflexivity|].
  split; [eexists; split; reflexivity|].
  split.
  { apply get_render_job_found; [exact Hj|].
    unfold Database.update. cbn [String.eqb Ascii.eqb Bool.eqb].
    apply lookup_appended. }
  repeat split; reflexivity.
Qed.

(** X5 at the sample request in an empty database. *)
Lemma script_to_video_ids_resolve_witness :
  exists resp d' pid jid pdoc jdoc,
    script_to_video Sample.launch (Some Database.empty) = (Ok resp, Some d') /\
    json_get resp "project_id" = Some (JStr pid) /\
    json_get resp "job_id" = Some (JStr jid) /\
    get_project pid (Some d') = (Ok (JObj pdoc), Some d') /\
    PyDict.get pdoc "title" = Some (JStr (stv_title Sample.launch)) /\
    PyDict.get pdoc "media_ids" = Some (JList []) /\
    (exists st, PyDict.get pdoc "settings" = Some (JObj st) /\
                PyDict.get st "platforms"
                  = Some (JList [JStr (platform Sample.launch)])) /\
    get_render_job jid (Some d') = (Ok (JObj jdoc), Some d') /\
    PyDict.get jdoc "project_id" = Some (JStr pid) /\
    PyDict.get jdoc "job_type" = Some (JStr "render") /\
    PyDict.get jdoc "status" = json_get resp "status" /\
    PyDict.get jdoc "output_url" = json_get resp "output_url".
Proof.
  apply (script_to_video_ids_resolve Sample.launch Database.empty).
  - vm_compute. reflexivity.
  - vm_compute. reflexivity.
Defined.

(** X6: after an edit, the job id of the response fetches a job of type
    [edit] that carries the request's project id and command verbatim and
    agrees with the response on status and preview url; the project named
    in the request is never looked up, so this holds whether or not it
    exists. *)
Theorem edit_job_is_found (req : EditCommandRequest) (d : Database.t) :
  (Database.fresh_id (d "renderjob") < oid_bound)%N ->
  exists resp d' jid jdoc,
    ai_edit req (Some d) = (Ok resp, Some d') /\
    json_get resp "job_id" = Some (JStr jid) /\
    get_render_job jid (Some d') = (Ok (JObj jdoc), Some d') /\
    PyDict.get jdoc "job_type" = Some (JStr "edit") /\
    PyDict.get jdoc "project_id" = Some (JStr (edit_project_id req)) /\
    PyDict.get jdoc "params"
      = Some (JObj [ ("command", JStr (command req));
                     ("language", opt_str (edit_language req)) ]) /\
    PyDict.get jdoc "status" = json_get resp "status" /\
    PyDict.get jdoc "output_url" = json_get resp "preview_url" /\
    PyDict.get jdoc "id" = Some (JStr jid).
Proof.
  intros Hj. rewrite ai_edit_some.
  eexists. eexists.
  exists (Bson.to_str (Database.fresh_id (d "renderjob"))).
  eexists.
  split; [reflexivity|]. split; [reflexivity|].
  split.
  { apply get_render_job_found; [exact Hj|].
    unfold Database.update. cbn [String.eqb Ascii.eqb Bool.eqb].
    apply lookup_appended. }
  repeat split; reflexivity.
Qed.

(** X6 at the sample edit of a project that does not exist, in an empty
    database. *)
Lemma edit_job_is_found_witness :
  exists resp d' jid jdoc,
    ai_edit Sample.recolor (Some Database.empty) = (Ok resp, Some d') /\
    json_get resp "job_id" = Some (JStr jid) /\
    get_render_job jid (Some d') = (Ok (JObj jdoc), Some d') /\
    PyDict.get jdoc "job_type" = Some (JStr "edit") /\
    PyDict.get jdoc "project_id"
      = Some (JStr (edit_project_id Sample.recolor)) /\
    PyDict.get jdoc "params"
      = Some (JObj [ ("command", JStr (command Sample.recolor));
                     ("language", opt_str (edit_language Sample.recolor)) ]) /\
    PyDict.get jdoc "status" = json_get resp "status" /\
    PyDict.get jdoc "output_url" = json_get resp "preview_url" /\
    PyDict.get jdoc "id" = Some (JStr jid).
Proof.
  apply (edit_job_is_found Sample.recolor Database.empty).
  vm_compute. reflexivity.
Defined.

(** ** What requests write *)

Section Writes.
Local Open Scope list_scope.

Ltac lookups :=
  repeat match goal with
    | |- context [Bson.of_str ?s] => destruct (Bson.of_str s)
    | |- context [py_not ?doc] => destruct (py_not doc)
    end; cbn.

(** With a database, a request leaves a database, and each collection has
    one document more when the request writes to it and is the same list
    otherwise. *)
Lemma handle_some_effect r d name :
  exists d',
    snd (handle r (Some d)) = Some d' /\
    (writes_to name r = false -> d' name = d name) /\
    List.length (d' name)
    = List.length (d name) + (if writes_to name r then 1 else 0).
Proof.
  destruct r; cbn; lookups.
  all: eexists; split; [reflexivity|].
  all: unfold Database.update, writes_to; cbn [writes existsb].
  all: repeat match goal with
         | |- context [String.eqb ?n ?lit] =>
             destruct (String.eqb_spec n lit)
         end; subst; try congruence.
  all: cbn; rewrite ?length_app; cbn.
  all: split; [first [reflexivity | discriminate] | lia].
Qed.

End Writes.

(** X7: the listing, lookup and static routes (root, list and get routes,
    analytics, hello) give back the very same world they were given,
    with or without a database and whether they answer or raise. *)
Theorem read_only_requests_keep_the_world (r : Request) (w : World) :
  is_read_only r = true ->
  snd (handle r w) = w.
Proof.
  intros H. destruct r; try discriminate; destruct w as [d|]; cbn;
    try reflexivity.
  all: destruct (Bson.of_str _); [destruct (py_not _)|]; reflexivity.
Qed.

(** X7 at a lookup with a malformed id on the store holding the queued
    job. *)
Lemma read_only_requests_keep_the_world_witness :
  snd (handle (GetRenderJob "nope") Sample.with_queued) = Sample.with_queued.
Proof.
  apply (read_only_requests_keep_the_world
           (GetRenderJob "nope") Sample.with_queued).
  reflexivity.
Defined.

(** X8: a request changes no collection other than the ones its handler
    writes: brand creation only [brand], template creation only
    [template], media creation, voice cloning and avatar generation only
    [media], project creation only [project], edit only [renderjob],
    script-to-video only [project] and [renderjob]. *)
Theorem requests_write_only_their_collections (r : Request) (w : World)
    (name : string) :
  writes_to name r = false ->
  coll (snd (handle r w)) name = coll w name.
Proof.
  intros H. destruct w as [d|].
  - destruct (handle_some_effect r d name) as (d' & -> & Hsame & _).
    cbn. now apply Hsame.
  - destruct r; reflexivity.
Qed.

(** X8 at the sample edit and the project collection of a store that
    holds a project. *)
Lemma requests_write_only_their_collections_witness :
  coll (snd (handle (AiEdit Sample.trim)
               (run [CreateProject Sample.dangling] Sample.empty)))
    "project"
  = coll (run [CreateProject Sample.dangling] Sample.empty) "project".
Proof.
  apply (requests_write_only_their_collections
           (AiEdit Sample.trim)
           (run [CreateProject Sample.dangling] Sample.empty) "project").
  reflexivity.
Defined.

(** X9: with a database, serving a sequence of requests leaves a
    database in which each collection has grown by exactly the number of
    served requests that write to it: one job per submission, one project
    per project creation or script-to-video, and so on; lookups, listings
    and failed lookups add nothing. *)
Theorem run_adds_one_document_per_write (rs : list Request)
    (d : Database.t) (name : string) :
  exists d',
    run rs (Some d) = Some d' /\
    List.length (d' name)
    = List.length (d name) + List.length (filter (writes_to name) rs).
Proof.
  revert d. induction rs as [|r rs IH]; intros d.
  - exists d. split; [reflexivity | simpl; lia].
  - destruct (handle_some_effect r d name) as (d1 & Hd1 & _ & Hlen).
    destruct (IH d1) as (d' & Hrun & Hlen').
    exists d'. split.
    + simpl. rewrite Hd1. exact Hrun.
    + rewrite Hlen', Hlen. simpl.
      destruct (writes_to name r); simpl; lia.
Qed.

(** The sample session on an empty database: two jobs, two projects, one
    brand. *)
Example session_counts :
  List.length (coll (run MoreSamples.session Sample.empty) "renderjob") = 2 /\
  List.length (coll (run MoreSamples.session Sample.empty) "project") = 2 /\
  List.length (coll (run MoreSamples.session Sample.empty) "brand") = 1 /\
  List.length (coll (run MoreSamples.session Sample.empty) "media") = 0.
Proof. repeat split; reflexivity. Qed.

(** X10: no request deletes or rewrites a stored document: whatever a
    collection holds under an id is found under that id, unchanged, after
    any sequence of requests. *)
Theorem run_keeps_every_document (rs : list Request) (w : World)
    (name : string) (o : Bson.ObjectId) (doc : Document) :
  Database.lookup (coll w name) o = Some doc ->
  Database.lookup (coll (run rs w) name) o = Some doc.
Proof.
  revert w. induction rs as [|r rs IH]; intros w H; simpl; [exact H|].
  apply IH. now apply handle_keeps_document.
Qed.

(** X10 at the queued job under id 1 and the sample session. *)
Lemma run_keeps_every_document_witness :
  Database.lookup
    (coll (run MoreSamples.session Sample.with_queued) "renderjob") 1%N
  = Some (DRenderJob Sample.queued_job).
Proof.
  apply (run_keeps_every_document
           MoreSamples.session Sample.with_queued "renderjob" 1%N
           (DRenderJob Sample.queued_job)).
  reflexivity.
Defined.

(** ** Voices and avatars *)

(** X11: voice cloning and avatar generation each store one new media
    document and return its id.  The voice has kind [voice], the
    request's sample url and language, and metadata with the name and
    [clone = true]; the avatar has kind [avatar], the request's image
    url, the language [en] whatever the request says, and metadata with
    name, style and emotions.  Neither checks that a sample or an image
    was given. *)
Theorem voice_and_avatar_store_media (d : Database.t) :
  (forall req, exists resp d' o m,
      voice_clone req (Some d) = (Ok resp, Some d') /\
      resp = JObj [ ("voice_id", JStr (Bson.to_str o));
                    ("status", JStr "ready") ] /\
      stored_media (Some d) o = None /\
      stored_media (Some d') o = Some m /\
      kind m = "voice" /\
      source_url m = sample_url req /\
      media_language m = voice_language req /\
      metadata m = Some [ ("name", JStr (voice_name req));
                          ("clone", JBool true) ]) /\
  (forall req, exists resp d' o m,
      avatar_generate req (Some d) = (Ok resp, Some d') /\
      resp = JObj [ ("avatar_id", JStr (Bson.to_str o));
                    ("preview_url", JStr avatar_preview_url) ] /\
      stored_media (Some d) o = None /\
      stored_media (Some d') o = Some m /\
      kind m = "avatar" /\
      source_url m = image_url req /\
      media_language m = Some "en" /\
      metadata m = Some [ ("name", JStr (avatar_name req));
                          ("style", opt_str (style req));
                          ("emotions", str_list (emotions req)) ]).
Proof.
  split; intros req.
  - eexists. eexists. exists (Database.fresh_id (d "media")). eexists.
    split; [reflexivity|]. split; [reflexivity|].
    split.
    { unfold stored_media. cbn [coll].
      now rewrite DatabaseFacts.fresh_id_fresh. }
    split.
    { unfold stored_media, coll, Database.update.
      cbn [String.eqb Ascii.eqb Bool.eqb].
      rewrite lookup_appended. reflexivity. }
    repeat split; reflexivity.
  - eexists. eexists. exists (Database.fresh_id (d "media")). eexists.
    split; [reflexivity|]. split; [reflexivity|].
    split.
    { unfold stored_media. cbn [coll].
      now rewrite DatabaseFacts.fresh_id_fresh. }
    split.
    { unfold stored_media, coll, Database.update.
      cbn [String.eqb Ascii.eqb Bool.eqb].
      rewrite lookup_appended. reflexivity. }
    repeat split; reflexivity.
Qed.

(** ** Listings *)






(** ** Aspect ratio *)

(** X13: the project stored by script-to-video has aspect [9:16] exactly
    when the requested platform is the string [tiktok], and [16:9] for
    every other platform string, known or not; resolution and frame rate
    are [1080p] and 30 in every case. *)
Theorem script_to_video_aspect_follows_platform (req : ScriptToVideoRequest)
    (d : Database.t) :
  exists resp d' o p,
    script_to_video req (Some d) = (Ok resp, Some d') /\
    json_get resp "project_id" = Some (JStr (Bson.to_str o)) /\
    stored_project (Some d') o = Some p /\
    (PyDict.get (settings p) "aspect" = Some (JStr "9:16")
     <-> platform req = "tiktok") /\
    (PyDict.get (settings p) "aspect" = Some (JStr "16:9")
     <-> platform req <> "tiktok") /\
    PyDict.get (settings p) "resolution" = Some (JStr "1080p") /\
    PyDict.get (settings p) "fps" = Some (JInt 30).
Proof.
  rewrite script_to_video_some.
  eexists. eexists. exists (Database.fresh_id (d "project")).
  exists (script_project req).
  split; [reflexivity|]. split; [reflexivity|].
  split.
  { unfold stored_project, coll, Database.update.
    cbn [String.eqb Ascii.eqb Bool.eqb].
    rewrite lookup_appended. reflexivity. }
  cbn. destruct (String.eqb_spec (platform req) "tiktok") as [E|E].
  - repeat split; try reflexivity; try congruence; try discriminate.
  - repeat split; try reflexivity; try congruence; try discriminate.
Qed.

(** A platform spelled [TikTok] is not the string [tiktok]: the project is
    stored in landscape. *)
Example capitalised_tiktok_gets_landscape :
  PyDict.get
    (settings
       (script_project
          {| stv_title := "Clip"; script := "Hi"; stv_language := "en";
             platform := "TikTok"; voice_style := None;
             include_subtitles := true |}))
    "aspect" = Some (JStr "16:9").
Proof. reflexivity. Qed.
